(** * ReBench configurator: run filters and experiment resolution

    A shallow embedding of [rebench/configurator.py]: the run-filter
    classes ([_VMFilter], [_SuiteFilter], [_BenchmarkFilter],
    [_RunFilter]) and the experiment resolution of [Configurator].

    Python values are modelled as follows.
    - [str] is [string]; [None]-or-value is [option].
    - A raised exception is a value of [exn]; a call that may raise
      returns [result].
    - The raw configuration (a [dict] read from YAML) is a record whose
      fields are [option]s: [None] means that the key is absent, so that
      subscription [d['k']] raises [KeyError] and [d.get('k', x)] yields
      the default.
    - The insertion-ordered [experiments] dict is an association list
      (iteration order is the list order).
    - Dicts created by the Configurator live in a heap and are handed
      out by reference. *)

From Stdlib Require Import String Ascii List Bool.
From stdpp Require Import base strings list gmap fin_maps.

#[local] Set Warnings "-clear-no-such-hyp".

Import ListNotations.
Local Open Scope string_scope.
Local Open Scope list_scope.

(** ** Exceptions and results *)

Inductive exn : Type :=
| Exception (msg : string)
| IndexError (msg : string)
| ValueError (msg : string)
| KeyError (key : string).

Inductive result (A : Type) : Type :=
| Ok (a : A)
| Raise (e : exn).

Arguments Ok {A} a.
Arguments Raise {A} e.

(** Sequencing stops at the first exception; [x ← c; k] is stdpp's
    notation for it. *)
#[export] Instance result_bind : MBind result := fun A B k r =>
  match r with
  | Ok a => k a
  | Raise e => Raise e
  end.

(** ** [str.split] with a one-character separator

    [split sep s] is Python's [s.split(sep)]: the pieces between the
    occurrences of [sep], empty pieces included; never the empty list. *)

Fixpoint split (sep : ascii) (s : string) : list string :=
  match s with
  | EmptyString => [EmptyString]
  | String c s' =>
      if Ascii.eqb c sep then EmptyString :: split sep s'
      else match split sep s' with
           | [] => [String c EmptyString]
           | p :: ps => String c p :: ps
           end
  end.

(** [parts[i]] on a Python list. *)
Definition getitem {A} (parts : list A) (i : nat) : result A :=
  match parts !! i with
  | Some x => Ok x
  | None => Raise (IndexError "list index out of range")
  end.

(** ** Benchmark identities: what the filters read *)

Module VM.
Record t := { name : string }.
End VM.

Module Suite.
Record t := { name : string }.
End Suite.

Record Benchmark := {
  vm : VM.t;
  suite : Suite.t;
  name : string
}.

(** ** The matcher classes *)

Class Matcher (F : Type) := matches : F -> Benchmark -> bool.

Module _VMFilter.
Record t := { _name : string }.

Definition __init__ (name : string) : t := {| _name := name |}.

Definition matches (self : t) (bench : Benchmark) : bool :=
  String.eqb (VM.name (vm bench)) (_name self).
End _VMFilter.

Module _SuiteFilter.
Record t := { _name : string }.

Definition __init__ (name : string) : t := {| _name := name |}.

Definition matches (self : t) (bench : Benchmark) : bool :=
  String.eqb (Suite.name (suite bench)) (_name self).
End _SuiteFilter.

(** [_BenchmarkFilter] extends [_SuiteFilter]: the inherited state is the
    field [super], the inherited [matches] is called on it. *)
Module _BenchmarkFilter.
Record t := { super : _SuiteFilter.t; _benchmark_name : string }.

Definition __init__ (suite_name benchmark_name : string) : t :=
  {| super := _SuiteFilter.__init__ suite_name;
     _benchmark_name := benchmark_name |}.

Definition matches (self : t) (bench : Benchmark) : bool :=
  if negb (_SuiteFilter.matches (super self) bench) then false
  else String.eqb (name bench) (_benchmark_name self).
End _BenchmarkFilter.

(** What [_suite_filters] holds: instances of [_SuiteFilter] proper or of
    its subclass; [matches] dispatches on the instance's class. *)
Inductive suite_filter_obj : Type :=
| SuiteObj (f : _SuiteFilter.t)
| BenchmarkObj (f : _BenchmarkFilter.t).

#[export] Instance VMFilter_Matcher : Matcher _VMFilter.t := _VMFilter.matches.

#[export] Instance suite_filter_obj_Matcher : Matcher suite_filter_obj :=
  fun o bench =>
    match o with
    | SuiteObj f => _SuiteFilter.matches f bench
    | BenchmarkObj f => _BenchmarkFilter.matches f bench
    end.

(** ** [_RunFilter] *)

Module _RunFilter.
Record t := {
  _vm_filters : list _VMFilter.t;
  _suite_filters : list suite_filter_obj
}.

Definition empty : t := {| _vm_filters := []; _suite_filters := [] |}.

(** The body of the [for run_filter in run_filters] loop. *)
Definition add_filter (self : t) (run_filter : string) : result t :=
  let parts := split ":" run_filter in
  p0 ← getitem parts 0;
  if String.eqb p0 "vm" then
    p1 ← getitem parts 1;
    Ok {| _vm_filters := _vm_filters self ++ [_VMFilter.__init__ p1];
          _suite_filters := _suite_filters self |}
  else if String.eqb p0 "s" && Nat.eqb (length parts) 2 then
    p1 ← getitem parts 1;
    Ok {| _vm_filters := _vm_filters self;
          _suite_filters :=
            _suite_filters self ++ [SuiteObj (_SuiteFilter.__init__ p1)] |}
  else if String.eqb p0 "s" && Nat.eqb (length parts) 3 then
    p1 ← getitem parts 1;
    p2 ← getitem parts 2;
    Ok {| _vm_filters := _vm_filters self;
          _suite_filters :=
            _suite_filters self
              ++ [BenchmarkObj (_BenchmarkFilter.__init__ p1 p2)] |}
  else
    Raise (Exception ("Unknown filter expression: " +:+ run_filter)).

Fixpoint add_filters (self : t) (run_filters : list string) : result t :=
  match run_filters with
  | [] => Ok self
  | run_filter :: rest =>
      self' ← add_filter self run_filter;
      add_filters self' rest
  end.

(** [run_filters] is [None] or a list of tokens; [not run_filters]
    holds for [None] and for the empty list. *)
Definition __init__ (run_filters : option (list string)) : result t :=
  match run_filters with
  | None | Some [] => Ok empty
  | Some tokens => add_filters empty tokens
  end.

(** The static method [_match]. *)
Fixpoint _match_loop {F} `{Matcher F} (filters : list F) (bench : Benchmark)
  : bool :=
  match filters with
  | [] => false
  | run_filter :: rest =>
      if matches run_filter bench then true else _match_loop rest bench
  end.

Definition _match {F} `{Matcher F} (filters : list F) (bench : Benchmark)
  : bool :=
  match filters with
  | [] => true
  | _ => _match_loop filters bench
  end.

Definition applies (self : t) (bench : Benchmark) : bool :=
  _match (_vm_filters self) bench && _match (_suite_filters self) bench.
End _RunFilter.

(** ** Truthiness of an optional string, as [or], [not] and [if] see it *)

Definition truthy (v : option string) : bool :=
  match v with
  | Some s => negb (String.eqb s "")
  | None => false
  end.

(** [d['key']] on a dict read from YAML: absent keys raise. *)
Definition subscript {A} (key : string) (field : option A) : result A :=
  match field with
  | Some v => Ok v
  | None => Raise (KeyError key)
  end.

(** [key in d] and [d[key]] on an insertion-ordered dict. *)
Definition dict_contains {A} (d : list (string * A)) (key : string) : bool :=
  existsb (fun kv => String.eqb (fst kv) key) d.

Definition dict_getitem {A} (d : list (string * A)) (key : string) : result A :=
  match find (fun kv => String.eqb (fst kv) key) d with
  | Some kv => Ok (snd kv)
  | None => Raise (KeyError key)
  end.

Definition dict_keys {A} (d : list (string * A)) : list string := map fst d.

(** ** The CLI options object *)

Record Options := {
  debug : bool;
  verbose : bool;
  use_nice : bool;
  do_builds : bool;
  clean : bool
}.

(** References to the dicts that the Configurator allocates. *)
Definition loc := positive.

Section Configurator.
(** The collaborators: the sections of the configuration that are
    handed on unread, the [RunsConfig] and [Experiment] models, the
    data store, the reporter, and the state [W] they act on (the data
    store's contents and the contents of the shared build-command
    cache [_build_commands], which [Experiment]'s constructor
    updates). *)
Context {ExpDef VMs Suites Reporting Runs RunsCfg : Type}.
Context {DataStore Reporter Experiment W : Type}.
Context `{Countable Run}.

Record RawConfig := {
  cfg_runs : option Runs;
  cfg_standard_data_file : option string;
  cfg_standard_experiment : option (option string);
  cfg_experiments : option (list (string * ExpDef));
  cfg_virtual_machines : option VMs;
  cfg_benchmark_suites : option Suites;
  cfg_reporting : option Reporting;
  cfg_build_log : option string
}.

(** The positional arguments of [Experiment(...)], in call order; the
    build-command cache is part of [W]. *)
Record ExperimentArgs := {
  arg_name : string;
  arg_exp_def : ExpDef;
  arg_run_cfg : RunsCfg;
  arg_virtual_machines : VMs;
  arg_benchmark_suites : Suites;
  arg_reporting : Reporting;
  arg_data_store : DataStore;
  arg_standard_data_file : option string;
  arg_clean : bool;
  arg_cli_reporter : option Reporter;
  arg_run_filter : _RunFilter.t;
  arg_options : option Options
}.

(** [_load_config] is looked up on the instance; the class body does not
    define it, so it is taken as given here, like the constructors
    [RunsConfig(...)] and [Experiment(...)], the probe
    [can_set_niceness()] and [Experiment.get_runs()]. [empty_runs] and
    [empty_reporting] are the [{}] defaults of the two [.get] calls. *)
Variable _load_config : string -> W -> result RawConfig * W.
Variable RunsConfig_init : Runs -> RunsCfg.
Variable empty_runs : Runs.
Variable empty_reporting : Reporting.
Variable can_set_niceness : W -> bool.
Variable Experiment_init : ExperimentArgs -> W -> result Experiment * W.
Variable Experiment_get_runs : Experiment -> gset Run.

(** The state a call runs in: the collaborators' state, the dicts
    created by the Configurator, and the record of the
    [Experiment(...)] calls made so far (by experiment name). *)
Record World := {
  ext : W;
  dicts : gmap loc (gmap string Experiment);
  constructed : list string
}.

Definition M (A : Type) : Type := World -> result A * World.

Definition ret {A} (a : A) : M A := fun w => (Ok a, w).

Definition raise {A} (e : exn) : M A := fun w => (Raise e, w).

#[export] Instance bind : MBind M := fun A B k c w =>
  match c w with
  | (Ok a, w') => k a w'
  | (Raise e, w') => (Raise e, w')
  end.

Definition lift {A} (r : result A) : M A := fun w => (r, w).

(** [{}]: a new dict, at a reference that is not in use. *)
Definition new_dict : M loc :=
  fun w =>
    let l := fresh (dom (dicts w)) in
    (Ok l, {| ext := ext w;
              dicts := <[l := ∅]> (dicts w);
              constructed := constructed w |}).

(** [d[key] = value] through the reference [d]. *)
Definition dict_setitem (d : loc) (key : string) (value : Experiment)
  : M unit :=
  fun w =>
    (Ok tt, {| ext := ext w;
               dicts := alter (insert key value) d (dicts w);
               constructed := constructed w |}).

Definition deref (w : World) (d : loc) : gmap string Experiment :=
  default ∅ (dicts w !! d).

(** The call [Experiment(...)]. *)
Definition new_Experiment (args : ExperimentArgs) : M Experiment :=
  fun w =>
    let (r, e) := Experiment_init args (ext w) in
    (r, {| ext := e;
           dicts := dicts w;
           constructed := constructed w ++ [arg_name args] |}).

Definition load (file_name : string) : M RawConfig :=
  fun w =>
    let (r, e) := _load_config file_name (ext w) in
    (r, {| ext := e; dicts := dicts w; constructed := constructed w |}).

(** The attributes of a Configurator that [__init__] has set when it
    calls [_compile_experiments]. *)
Record Configurator0 := {
  _raw_config : RawConfig;
  _options : option Options;
  _exp_name : option string;
  runs : RunsCfg;
  _data_store : DataStore
}.

(** A constructed Configurator; [_experiments] refers to the compiled
    dict. *)
Record Configurator := {
  base :> Configurator0;
  _experiments : loc
}.

(** The logging set-up of [_process_cli_options] is not modelled; what
    is left is the [use_nice] flag, cleared when the probe fails. *)
Definition _process_cli_options (options : option Options) (e : W)
  : option Options :=
  match options with
  | None => None
  | Some o =>
      if use_nice o && negb (can_set_niceness e) then
        Some {| debug := debug o; verbose := verbose o; use_nice := false;
                do_builds := do_builds o; clean := clean o |}
      else Some o
  end.

Definition build_log (self : Configurator0) : string :=
  default "build.log" (cfg_build_log (_raw_config self)).

Definition options (self : Configurator0) : option Options := _options self.

Definition prop_use_nice (self : Configurator0) : bool :=
  match options self with
  | Some o => use_nice o
  | None => false
  end.

Definition prop_do_builds (self : Configurator0) : bool :=
  match options self with
  | Some o => do_builds o
  | None => false
  end.

Definition experiment_name (self : Configurator0) : result (option string) :=
  if truthy (_exp_name self) then Ok (_exp_name self)
  else subscript "standard_experiment"
         (cfg_standard_experiment (_raw_config self)).

Definition _compile_experiment (self : Configurator0) (exp_name : string)
    (cli_reporter : option Reporter) (run_filter : _RunFilter.t)
  : M Experiment :=
  exps ← lift (subscript "experiments" (cfg_experiments (_raw_config self)));
  exp_def ← lift (dict_getitem exps exp_name);
  let run_cfg := runs self in
  vms ← lift (subscript "virtual_machines"
                 (cfg_virtual_machines (_raw_config self)));
  suites ← lift (subscript "benchmark_suites"
                    (cfg_benchmark_suites (_raw_config self)));
  new_Experiment
    {| arg_name := exp_name;
       arg_exp_def := exp_def;
       arg_run_cfg := run_cfg;
       arg_virtual_machines := vms;
       arg_benchmark_suites := suites;
       arg_reporting :=
         default empty_reporting (cfg_reporting (_raw_config self));
       arg_data_store := _data_store self;
       arg_standard_data_file := cfg_standard_data_file (_raw_config self);
       arg_clean := match _options self with
                    | Some o => clean o
                    | None => false
                    end;
       arg_cli_reporter := cli_reporter;
       arg_run_filter := run_filter;
       arg_options := _options self |}.

(** The loop [for exp_name in self._raw_config['experiments']]. *)
Fixpoint compile_each (self : Configurator0) (cli_reporter : option Reporter)
    (run_filter : _RunFilter.t) (conf_defs : loc) (names : list string)
  : M unit :=
  match names with
  | [] => ret tt
  | exp_name :: rest =>
      e ← _compile_experiment self exp_name cli_reporter run_filter;
      _ ← dict_setitem conf_defs exp_name e;
      compile_each self cli_reporter run_filter conf_defs rest
  end.

(** [experiment_name()] reads attributes that nothing assigns during
    the call, so its value is bound once; a falsy value ([None] or the
    empty string) is the [not self.experiment_name()] case. *)
Definition _compile_experiments (self : Configurator0)
    (cli_reporter : option Reporter) (run_filter : _RunFilter.t) : M loc :=
  chosen ← lift (experiment_name self);
  match chosen with
  | None => raise (ValueError "No experiment chosen.")
  | Some exp =>
      if String.eqb exp "" then raise (ValueError "No experiment chosen.")
      else
        conf_defs ← new_dict;
        if String.eqb exp "all" then
          exps ← lift (subscript "experiments"
                          (cfg_experiments (_raw_config self)));
          _ ← compile_each self cli_reporter run_filter conf_defs
                 (dict_keys exps);
          ret conf_defs
        else
          exps ← lift (subscript "experiments"
                          (cfg_experiments (_raw_config self)));
          if negb (dict_contains exps exp) then
            raise (ValueError
                     ("Requested experiment '" +:+ exp +:+ "' not available."))
          else
            e ← _compile_experiment self exp cli_reporter run_filter;
            _ ← dict_setitem conf_defs exp e;
            ret conf_defs
  end.

Definition __init__ (file_name : string) (data_store : DataStore)
    (cli_options : option Options) (cli_reporter : option Reporter)
    (exp_name : option string) (standard_data_file : option string)
    (run_filter : option (list string)) : M Configurator :=
  raw ← load file_name;
  let raw :=
    if truthy standard_data_file then
      {| cfg_runs := cfg_runs raw;
         cfg_standard_data_file := standard_data_file;
         cfg_standard_experiment := cfg_standard_experiment raw;
         cfg_experiments := cfg_experiments raw;
         cfg_virtual_machines := cfg_virtual_machines raw;
         cfg_benchmark_suites := cfg_benchmark_suites raw;
         cfg_reporting := cfg_reporting raw;
         cfg_build_log := cfg_build_log raw |}
    else raw in
  opts ← (fun w => (Ok (_process_cli_options cli_options (ext w)), w));
  let self :=
    {| _raw_config := raw;
       _options := opts;
       _exp_name := exp_name;
       runs := RunsConfig_init (default empty_runs (cfg_runs raw));
       _data_store := data_store |} in
  rf ← lift (_RunFilter.__init__ run_filter);
  compiled ← _compile_experiments self cli_reporter rf;
  ret {| base := self; _experiments := compiled |}.

Definition get_experiments (self : Configurator) : loc := _experiments self.

Definition get_experiment (self : Configurator) (name : string)
  : M Experiment :=
  fun w =>
    match deref w (_experiments self) !! name with
    | Some e => (Ok e, w)
    | None => (Raise (KeyError name), w)
    end.

Definition get_runs (self : Configurator) : M (gset Run) :=
  fun w =>
    (Ok (foldl (fun runs exp => runs ∪ Experiment_get_runs exp) ∅
           (map snd (map_to_list (deref w (_experiments self))))), w).

(** The methods a client can call on a constructed Configurator, and
    what they return. *)
Inductive method : Type :=
| m_build_log
| m_options
| m_use_nice
| m_do_builds
| m_experiment_name
| m_get_experiments
| m_get_experiment (name : string)
| m_get_runs.

Inductive value : Type :=
| v_str (s : option string)
| v_bool (b : bool)
| v_options (o : option Options)
| v_dict (d : loc)
| v_experiment (e : Experiment)
| v_runs (r : gset Run).

Definition fmap_result {A B} (f : A -> B) (c : M A) : M B :=
  x ← c; ret (f x).

Definition invoke (self : Configurator) (m : method) : M value :=
  match m with
  | m_build_log => ret (v_str (Some (build_log self)))
  | m_options => ret (v_options (options self))
  | m_use_nice => ret (v_bool (prop_use_nice self))
  | m_do_builds => ret (v_bool (prop_do_builds self))
  | m_experiment_name => fmap_result v_str (lift (experiment_name self))
  | m_get_experiments => ret (v_dict (get_experiments self))
  | m_get_experiment name => fmap_result v_experiment (get_experiment self name)
  | m_get_runs => fmap_result v_runs (get_runs self)
  end.

(** A client's session: the calls are made one after the other, an
    exception being caught by the client; the outcomes are collected. *)
Fixpoint session (self : Configurator) (calls : list method) (w : World)
  : list (result value) * World :=
  match calls with
  | [] => ([], w)
  | m :: rest =>
      let (r, w') := invoke self m w in
      let (rs, w'') := session self rest w' in
      (r :: rs, w'')
  end.
End Configurator.

(** ** A small configuration to run the definitions on

    The collaborators are trivial here: a compiled experiment is its
    name, the collaborators' state counts the [Experiment(...)] calls,
    and loading yields [config], or [config_no_standard] for the file
    name ["no_standard.conf"]. *)

Module Sample.
Definition config : @RawConfig unit unit unit unit unit :=
  {| cfg_runs := None;
     cfg_standard_data_file := None;
     cfg_standard_experiment := Some (Some "Test");
     cfg_experiments := Some [("Test", tt); ("Other", tt)];
     cfg_virtual_machines := Some tt;
     cfg_benchmark_suites := Some tt;
     cfg_reporting := None;
     cfg_build_log := None |}.

Definition config_no_standard : @RawConfig unit unit unit unit unit :=
  {| cfg_runs := None;
     cfg_standard_data_file := None;
     cfg_standard_experiment := None;
     cfg_experiments := Some [("Test", tt); ("Other", tt)];
     cfg_virtual_machines := Some tt;
     cfg_benchmark_suites := Some tt;
     cfg_reporting := None;
     cfg_build_log := None |}.

Definition load_config (file_name : string) (e : nat)
  : result (@RawConfig unit unit unit unit unit) * nat :=
  (Ok (if String.eqb file_name "no_standard.conf" then config_no_standard
       else config), e).

Definition Experiment_init
    (args : @ExperimentArgs unit unit unit unit unit unit unit) (e : nat)
  : result string * nat :=
  (Ok (arg_name args), S e).

Definition Experiment_get_runs (e : string) : gset nat :=
  {[ String.length e ]}.

Definition world0 : @World string nat :=
  {| ext := 0; dicts := ∅; constructed := [] |}.

Definition self0 (raw : @RawConfig unit unit unit unit unit)
    (exp_name : option string)
  : @Configurator0 unit unit unit unit unit unit unit :=
  {| _raw_config := raw;
     _options := None;
     _exp_name := exp_name;
     runs := tt;
     _data_store := tt |}.

Definition compile (raw : @RawConfig unit unit unit unit unit)
    (exp_name : option string) : M loc :=
  _compile_experiments (Reporter := unit) tt Experiment_init
    (self0 raw exp_name) None _RunFilter.empty.

(** The Configurator and the state that [compile] leaves. *)
Definition conf (exp_name : option string)
  : @Configurator unit unit unit unit unit unit unit :=
  {| base := self0 config exp_name; _experiments := 1%positive |}.

Definition world_of (exp_name : option string) : @World string nat :=
  (compile config exp_name world0).2.

Definition new (file_name : string) (exp_name : option string)
    (run_filter : option (list string))
  : M (@Configurator unit unit unit unit unit unit unit) :=
  __init__ (Reporter := unit) load_config (fun _ => tt) tt tt
    (fun _ => true) Experiment_init file_name tt None None exp_name None
    run_filter.
End Sample.

(** More sample data: a configuration without the VM table, options
    that ask for [nice], a constructor that fails for the experiment
    ["Test"], and construction with a given probe result, options and
    data-file override. *)

Module SampleMore.
Definition config_no_vms : @RawConfig unit unit unit unit unit :=
  {| cfg_runs := None;
     cfg_standard_data_file := Some "rebench.data";
     cfg_standard_experiment := Some (Some "Test");
     cfg_experiments := Some [("Test", tt); ("Other", tt)];
     cfg_virtual_machines := None;
     cfg_benchmark_suites := Some tt;
     cfg_reporting := None;
     cfg_build_log := None |}.

Definition options_nice : Options :=
  {| debug := false; verbose := false; use_nice := true;
     do_builds := true; clean := false |}.

Definition Experiment_init_failing
    (args : @ExperimentArgs unit unit unit unit unit unit unit) (e : nat)
  : result string * nat :=
  if String.eqb (arg_name args) "Other" then
    (Raise (Exception "cannot build"), e)
  else (Ok (arg_name args), S e).

Definition compile_failing (exp_name : option string) : M loc :=
  _compile_experiments (Reporter := unit) tt Experiment_init_failing
    (Sample.self0 Sample.config exp_name) None _RunFilter.empty.

Definition new_with (probe : bool) (cli_options : option Options)
    (standard_data_file : option string) (exp_name : option string)
  : M (@Configurator unit unit unit unit unit unit unit) :=
  __init__ (Reporter := unit) Sample.load_config (fun _ => tt) tt tt
    (fun _ => probe) Sample.Experiment_init "rebench.conf" tt cli_options
    None exp_name standard_data_file None.
End SampleMore.

(** * Properties *)

(** ** Run filters *)

Lemma split_not_nil (sep : ascii) (s : string) : split sep s ≠ [].
Proof.
  induction s as [|c s IH]; simpl; [done|].
  destruct (Ascii.eqb c sep); [done|].
  destruct (split sep s); done.
Qed.

Lemma match_loop_true {F} `{Matcher F} (filters : list F) (bench : Benchmark) :
  _RunFilter._match_loop filters bench = true
  ↔ ∃ f, f ∈ filters ∧ matches f bench = true.
Proof.
  induction filters as [|f filters IH]; simpl.
  - split; [done|]. intros (f & Hf & _). by apply elem_of_nil in Hf.
  - destruct (matches f bench) eqn:Hm.
    + split; [|done]. intros _. exists f. split; [apply elem_of_cons; by left|done].
    + rewrite IH. split.
      * intros (g & Hg & Hgm). exists g. split; [apply elem_of_cons; by right|done].
      * intros (g & Hg & Hgm). apply elem_of_cons in Hg as [->|Hg]; [congruence|].
        by exists g.
Qed.

Lemma match_true {F} `{Matcher F} (filters : list F) (bench : Benchmark) :
  _RunFilter._match filters bench = true
  ↔ filters = [] ∨ ∃ f, f ∈ filters ∧ matches f bench = true.
Proof.
  destruct filters as [|f filters].
  - simpl. split; [by left|done].
  - unfold _RunFilter._match. rewrite match_loop_true. split; [by right|].
    by intros [?|?].
Qed.

(** C1: [applies] is the conjunction of the two buckets' results, and a
    bucket's result is true exactly when the bucket is empty or at least
    one of its matchers matches the benchmark. *)
Theorem applies_and_of_or_buckets (self : _RunFilter.t) (bench : Benchmark) :
  _RunFilter.applies self bench
  = _RunFilter._match (_RunFilter._vm_filters self) bench
    && _RunFilter._match (_RunFilter._suite_filters self) bench
  ∧ (_RunFilter.applies self bench = true
     ↔ (_RunFilter._vm_filters self = []
        ∨ ∃ f, f ∈ _RunFilter._vm_filters self ∧ matches f bench = true)
       ∧ (_RunFilter._suite_filters self = []
          ∨ ∃ f, f ∈ _RunFilter._suite_filters self ∧ matches f bench = true)).
Proof.
  split; [reflexivity|].
  unfold _RunFilter.applies.
  rewrite andb_true_iff, !match_true. reflexivity.
Qed.

(** C6: for [None] and for the empty list the constructor returns the
    filter with both buckets empty, and that filter applies to every
    benchmark. *)
Theorem no_tokens_match_everything :
  ∀ run_filters : option (list string),
    run_filters = None ∨ run_filters = Some [] →
    ∃ self,
      _RunFilter.__init__ run_filters = Ok self
      ∧ _RunFilter._vm_filters self = []
      ∧ _RunFilter._suite_filters self = []
      ∧ ∀ bench, _RunFilter.applies self bench = true.
Proof.
  intros run_filters [-> | ->]; exists _RunFilter.empty; repeat split.
Qed.

Lemma no_tokens_match_everything_witness :
  ∃ self,
    _RunFilter.__init__ (Some []) = Ok self
    ∧ _RunFilter._vm_filters self = []
    ∧ _RunFilter._suite_filters self = []
    ∧ ∀ bench, _RunFilter.applies self bench = true.
Proof. apply (no_tokens_match_everything (Some [])). right. reflexivity. Defined.

(** C7: a benchmark matcher matches exactly the benchmarks whose suite
    name and own name equal the stored ones; whatever it matches, the
    suite matcher for the same suite matches too. *)
Theorem benchmark_filter_refines_suite_filter
    (suite_name benchmark_name : string) (bench : Benchmark) :
  (_BenchmarkFilter.matches
     (_BenchmarkFilter.__init__ suite_name benchmark_name) bench = true
   ↔ Suite.name (suite bench) = suite_name ∧ name bench = benchmark_name)
  ∧ _BenchmarkFilter.matches
      (_BenchmarkFilter.__init__ suite_name benchmark_name) bench
    = _SuiteFilter.matches (_SuiteFilter.__init__ suite_name) bench
      && String.eqb (name bench) benchmark_name
  ∧ (_BenchmarkFilter.matches
       (_BenchmarkFilter.__init__ suite_name benchmark_name) bench = true
     → _SuiteFilter.matches (_SuiteFilter.__init__ suite_name) bench = true).
Proof.
  unfold _BenchmarkFilter.matches, _SuiteFilter.matches; simpl.
  destruct (String.eqb_spec (Suite.name (suite bench)) suite_name) as [Hs|Hs];
    simpl; (split; [|split; [reflexivity|]]).
  - rewrite String.eqb_eq. tauto.
  - done.
  - split; [done|]. intros [? _]. contradiction.
  - done.
Qed.

Lemma add_filters_app (self : _RunFilter.t) (l1 l2 : list string) :
  _RunFilter.add_filters self (l1 ++ l2)
  = (self' ← _RunFilter.add_filters self l1; _RunFilter.add_filters self' l2).
Proof.
  revert self. induction l1 as [|tok l1 IH]; intros self; simpl; [done|].
  destruct (_RunFilter.add_filter self tok) as [self'|e]; simpl; [apply IH|done].
Qed.

Lemma init_some (tokens : list string) :
  _RunFilter.__init__ (Some tokens)
  = _RunFilter.add_filters _RunFilter.empty tokens.
Proof. by destruct tokens. Qed.

Lemma add_filter_vm (self : _RunFilter.t) (tok p1 : string) (rest : list string) :
  split ":" tok = "vm" :: p1 :: rest →
  _RunFilter.add_filter self tok
  = Ok {| _RunFilter._vm_filters :=
            _RunFilter._vm_filters self ++ [{| _VMFilter._name := p1 |}];
          _RunFilter._suite_filters := _RunFilter._suite_filters self |}.
Proof. intros Hparts. unfold _RunFilter.add_filter. by rewrite Hparts. Qed.

(** What the [else] branch does: a token whose first part is neither
    ["vm"] nor an ["s"] followed by one or two more parts is reported
    verbatim. *)
Lemma add_filter_unknown (self : _RunFilter.t) (tok : string) :
  hd "" (split ":" tok) ≠ "vm" →
  ¬ (hd "" (split ":" tok) = "s"
     ∧ (length (split ":" tok) = 2 ∨ length (split ":" tok) = 3)) →
  _RunFilter.add_filter self tok
  = Raise (Exception ("Unknown filter expression: " +:+ tok)).
Proof.
  intros Hvm Hs. unfold _RunFilter.add_filter.
  destruct (split ":" tok) as [|p0 ps] eqn:Hparts;
    [by apply split_not_nil in Hparts|].
  simpl in *.
  destruct (String.eqb_spec p0 "vm"); [done|].
  destruct (String.eqb_spec p0 "s") as [->|]; simpl; [|done].
  destruct ps as [|p1 [|p2 [|p3 ps]]]; simpl; try done; exfalso; apply Hs; auto.
Qed.

(** C9: a token whose first part is ["vm"] and that has at least two
    parts is accepted whatever follows the second part: the filter built
    from the tokens before it gains one VM matcher, holding the second
    part only, and construction goes on with the tokens after it. *)
Theorem vm_token_arity_unchecked
    (pre post : list string) (tok p1 : string) (rest : list string)
    (self : _RunFilter.t) :
  split ":" tok = "vm" :: p1 :: rest →
  _RunFilter.add_filters _RunFilter.empty pre = Ok self →
  _RunFilter.__init__ (Some [tok])
  = Ok {| _RunFilter._vm_filters := [_VMFilter.__init__ p1];
          _RunFilter._suite_filters := [] |}
  ∧ _RunFilter.__init__ (Some (pre ++ [tok]))
    = Ok {| _RunFilter._vm_filters :=
              _RunFilter._vm_filters self ++ [_VMFilter.__init__ p1];
            _RunFilter._suite_filters := _RunFilter._suite_filters self |}
  ∧ _RunFilter.__init__ (Some (pre ++ tok :: post))
    = _RunFilter.add_filters
        {| _RunFilter._vm_filters :=
             _RunFilter._vm_filters self ++ [_VMFilter.__init__ p1];
           _RunFilter._suite_filters := _RunFilter._suite_filters self |}
        post.
Proof.
  intros Hparts Hpre. split; [|split].
  - rewrite init_some. simpl. by rewrite (add_filter_vm _ _ _ _ Hparts).
  - rewrite init_some, add_filters_app, Hpre. simpl.
    by rewrite (add_filter_vm _ _ _ _ Hparts).
  - rewrite init_some, add_filters_app, Hpre. simpl.
    by rewrite (add_filter_vm _ _ _ _ Hparts).
Qed.

Lemma vm_token_arity_unchecked_witness :
  _RunFilter.__init__ (Some ["vm:a:b:c"])
  = Ok {| _RunFilter._vm_filters := [_VMFilter.__init__ "a"];
          _RunFilter._suite_filters := [] |}
  ∧ _RunFilter.__init__ (Some (["s:x"] ++ ["vm:a:b:c"]))
    = Ok {| _RunFilter._vm_filters := [] ++ [_VMFilter.__init__ "a"];
            _RunFilter._suite_filters :=
              [SuiteObj (_SuiteFilter.__init__ "x")] |}
  ∧ _RunFilter.__init__ (Some (["s:x"] ++ "vm:a:b:c" :: ["s:y:z"]))
    = _RunFilter.add_filters
        {| _RunFilter._vm_filters := [] ++ [_VMFilter.__init__ "a"];
           _RunFilter._suite_filters :=
             [SuiteObj (_SuiteFilter.__init__ "x")] |}
        ["s:y:z"].
Proof.
  apply (vm_token_arity_unchecked ["s:x"] ["s:y:z"] "vm:a:b:c" "a" ["b"; "c"]
           {| _RunFilter._vm_filters := [];
              _RunFilter._suite_filters :=
                [SuiteObj (_SuiteFilter.__init__ "x")] |});
    reflexivity.
Defined.

(** C2: the tokens ["vm"] and ["vm:a:b:c"] are not of one of the three
    forms, yet the first makes the constructor fail on the list index
    without naming the token, and the second is accepted. *)
Theorem vm_token_without_name_not_reported :
  _RunFilter.__init__ (Some ["vm"])
  = Raise (IndexError "list index out of range")
  ∧ _RunFilter.__init__ (Some ["vm:a:b:c"])
    = Ok {| _RunFilter._vm_filters := [_VMFilter.__init__ "a"];
            _RunFilter._suite_filters := [] |}
  ∧ _RunFilter.__init__ (Some ["badtoken"])
    = Raise (Exception "Unknown filter expression: badtoken")
  ∧ _RunFilter.__init__ (Some ["s:only:too:many:parts"])
    = Raise (Exception "Unknown filter expression: s:only:too:many:parts").
Proof. repeat split. Qed.

(** ** Experiment resolution *)

Section ConfiguratorFacts.
Context {ExpDef VMs Suites Reporting Runs RunsCfg : Type}.
Context {DataStore Reporter Experiment W : Type}.
Context `{Countable Run}.

Variable _load_config :
  string -> W -> result (@RawConfig ExpDef VMs Suites Reporting Runs) * W.
Variable RunsConfig_init : Runs -> RunsCfg.
Variable empty_runs : Runs.
Variable empty_reporting : Reporting.
Variable can_set_niceness : W -> bool.
Variable Experiment_init :
  @ExperimentArgs ExpDef VMs Suites Reporting RunsCfg DataStore Reporter
  -> W -> result Experiment * W.
Variable Experiment_get_runs : Experiment -> gset Run.

Abbreviation Conf0 :=
  (@Configurator0 ExpDef VMs Suites Reporting Runs RunsCfg DataStore).
Abbreviation Conf :=
  (@Configurator ExpDef VMs Suites Reporting Runs RunsCfg DataStore).
Abbreviation world := (@World Experiment W).
Abbreviation compile_experiment :=
  (_compile_experiment empty_reporting Experiment_init).
Abbreviation compile_experiments :=
  (_compile_experiments empty_reporting Experiment_init).
Abbreviation each := (compile_each empty_reporting Experiment_init).
Abbreviation init :=
  (__init__ _load_config RunsConfig_init empty_runs empty_reporting
     can_set_niceness Experiment_init).

Implicit Types (self : Conf0) (conf : Conf) (w : world).
Implicit Types (cli_reporter : option Reporter) (run_filter : _RunFilter.t).

Set Default Proof Using "Type".

Ltac step := unfold mbind, bind, lift, ret, raise; simpl.

Lemma experiment_name_cli self (exp : string) :
  _exp_name self = Some exp → exp ≠ "" → experiment_name self = Ok (Some exp).
Proof.
  intros Hn Hne. unfold experiment_name. rewrite Hn. simpl.
  by destruct (String.eqb_spec exp "").
Qed.

Lemma experiment_name_fallback self (v : option string) :
  truthy (_exp_name self) = false →
  cfg_standard_experiment (_raw_config self) = Some v →
  experiment_name self = Ok v.
Proof. intros Hn Hv. unfold experiment_name. by rewrite Hn, Hv. Qed.

Lemma experiment_name_missing self :
  truthy (_exp_name self) = false →
  cfg_standard_experiment (_raw_config self) = None →
  experiment_name self = Raise (KeyError "standard_experiment").
Proof. intros Hn Hv. unfold experiment_name. by rewrite Hn, Hv. Qed.

Lemma no_experiment_chosen self cli_reporter run_filter w (v : option string) :
  experiment_name self = Ok v → truthy v = false →
  compile_experiments self cli_reporter run_filter w
  = (Raise (ValueError "No experiment chosen."), w).
Proof.
  intros Hn Hv. unfold _compile_experiments. step. rewrite Hn.
  destruct v as [s|]; [|done]. simpl in Hv.
  by destruct (String.eqb s "").
Qed.

Lemma dict_contains_keys {A} (d : list (string * A)) (key : string) :
  dict_contains d key = true ↔ key ∈ dict_keys d.
Proof.
  unfold dict_contains, dict_keys. induction d as [|[k v] d IH]; simpl.
  - split; [done|]. intros Hin. by apply elem_of_nil in Hin.
  - rewrite orb_true_iff, IH, elem_of_cons, String.eqb_eq.
    split; (intros [Hk|Hk]; [left|right]); done.
Qed.

Lemma dict_getitem_key {A} (d : list (string * A)) (key : string) :
  key ∈ dict_keys d → ∃ v, dict_getitem d key = Ok v.
Proof.
  unfold dict_getitem, dict_keys. induction d as [|[k v] d IH]; simpl.
  - intros Hin. by apply elem_of_nil in Hin.
  - intros Hin. destruct (String.eqb_spec k key) as [->|Hne]; [by eexists|].
    apply elem_of_cons in Hin as [->|Hin]; [done|]. by apply IH.
Qed.

(** C5: a chosen name that is neither ["all"] nor a key of
    [experiments] makes [_compile_experiments] raise a [ValueError]
    naming it; up to then only the empty result dict has been created:
    [Experiment(...)] has not been called and the collaborators' state
    is untouched. *)
Theorem unknown_experiment_rejected
    self cli_reporter run_filter w (exp : string)
    (exps : list (string * ExpDef)) :
  experiment_name self = Ok (Some exp) →
  exp ≠ "" →
  exp ≠ "all" →
  cfg_experiments (_raw_config self) = Some exps →
  exp ∉ dict_keys exps →
  compile_experiments self cli_reporter run_filter w
  = (Raise (ValueError
              ("Requested experiment '" +:+ exp +:+ "' not available.")),
     {| ext := ext w;
        dicts := <[fresh (dom (dicts w)) := ∅]> (dicts w);
        constructed := constructed w |}).
Proof.
  intros Hn Hne Hall Hexps Hkey. unfold _compile_experiments. step.
  rewrite Hn, Hexps.
  destruct (String.eqb_spec exp ""); [done|].
  unfold new_dict. simpl.
  destruct (String.eqb_spec exp "all"); [done|]. simpl.
  destruct (dict_contains exps exp) eqn:Hc; [|done].
  by apply dict_contains_keys in Hc.
Qed.

Lemma compile_experiment_ok
    self (exp_name : string) cli_reporter run_filter w (e : Experiment) w' :
  compile_experiment self exp_name cli_reporter run_filter w = (Ok e, w') →
  dicts w' = dicts w ∧ constructed w' = constructed w ++ [exp_name].
Proof.
  unfold _compile_experiment, new_Experiment. step.
  destruct (subscript "experiments" _) as [exps|]; simpl; [|done].
  destruct (dict_getitem exps exp_name) as [exp_def|]; simpl; [|done].
  destruct (subscript "virtual_machines" _) as [vms|]; simpl; [|done].
  destruct (subscript "benchmark_suites" _) as [suites|]; simpl; [|done].
  destruct (Experiment_init _ _) as [r e']. intros [= -> <-]. done.
Qed.

Lemma compile_experiment_total
    self (exp_name : string) cli_reporter run_filter w
    (exps : list (string * ExpDef)) :
  cfg_experiments (_raw_config self) = Some exps →
  exp_name ∈ dict_keys exps →
  is_Some (cfg_virtual_machines (_raw_config self)) →
  is_Some (cfg_benchmark_suites (_raw_config self)) →
  (∀ args e, ∃ x e', Experiment_init args e = (Ok x, e')) →
  ∃ x w', compile_experiment self exp_name cli_reporter run_filter w
          = (Ok x, w').
Proof.
  intros Hexps Hkey [vms Hvms] [suites Hsuites] Hinit.
  unfold _compile_experiment, new_Experiment. step.
  rewrite Hexps, Hvms, Hsuites. simpl.
  destruct (dict_getitem_key exps exp_name Hkey) as [exp_def ->]. simpl.
  match goal with |- context [Experiment_init ?a ?e] =>
    destruct (Hinit a e) as (x & e' & ->) end.
  by eexists _, _.
Qed.

Lemma each_ok self cli_reporter run_filter (conf_defs : loc)
    (names : list string) :
  ∀ w w' (m0 : gmap string Experiment),
    dicts w !! conf_defs = Some m0 →
    each self cli_reporter run_filter conf_defs names w = (Ok (), w') →
    ∃ m, dicts w' !! conf_defs = Some m
         ∧ dom m = dom m0 ∪ list_to_set names
         ∧ constructed w' = constructed w ++ names.
Proof.
  induction names as [|exp_name names IH]; intros w w' m0 Hm0; simpl.
  - step. intros [= <-]. exists m0. rewrite app_nil_r.
    split; [done|]. split; [|done]. simpl. by rewrite (right_id_L ∅ (∪)).
  - step.
    destruct (compile_experiment self exp_name cli_reporter run_filter w)
      as [[e|ex] w1] eqn:Hc; [|done].
    apply compile_experiment_ok in Hc as [Hd Hl].
    unfold dict_setitem. simpl. intros Hrest.
    apply (IH _ _ (<[exp_name:=e]> m0)) in Hrest as (m & Hm & Hdom & Hcon).
    + exists m. split; [done|]. simpl in Hcon. rewrite Hcon, Hl, <- app_assoc.
      split; [|done]. rewrite Hdom, dom_insert_L. simpl.
      by rewrite (comm_L (∪) {[exp_name]}), (assoc_L (∪)).
    + simpl. rewrite lookup_alter_eq, Hd, Hm0. reflexivity.
Qed.

Lemma each_total self cli_reporter run_filter (conf_defs : loc)
    (exps : list (string * ExpDef)) (names : list string) :
  cfg_experiments (_raw_config self) = Some exps →
  is_Some (cfg_virtual_machines (_raw_config self)) →
  is_Some (cfg_benchmark_suites (_raw_config self)) →
  (∀ args e, ∃ x e', Experiment_init args e = (Ok x, e')) →
  names ⊆ dict_keys exps →
  ∀ w, ∃ w',
    each self cli_reporter run_filter conf_defs names w = (Ok (), w').
Proof.
  intros Hexps Hvms Hsuites Hinit.
  induction names as [|exp_name names IH]; intros Hsub w; simpl.
  - by eexists.
  - step.
    destruct (compile_experiment_total self exp_name cli_reporter run_filter
                w exps) as (x & w1 & ->); try done.
    { apply Hsub, elem_of_cons. by left. }
    apply IH. intros k Hk. apply Hsub, elem_of_cons. by right.
Qed.

(** C4: with the chosen name ["all"], a successful
    [_compile_experiments] has called [Experiment(...)] once per key of
    [experiments], in order, and the dict it returns (the one
    [get_experiments] hands out) has exactly these keys; and it is
    successful whenever the configuration has the tables the
    constructor is given and the constructor does not raise. *)
Theorem all_compiles_one_entry_per_key
    self cli_reporter run_filter w (exps : list (string * ExpDef)) :
  experiment_name self = Ok (Some "all") →
  cfg_experiments (_raw_config self) = Some exps →
  NoDup (dict_keys exps) →
  (∀ (conf_defs : loc) w',
     compile_experiments self cli_reporter run_filter w
     = (Ok conf_defs, w') →
     dicts w !! conf_defs = None
     ∧ ∃ m : gmap string Experiment,
         dicts w' !! get_experiments
                       {| base := self; _experiments := conf_defs |}
         = Some m
         ∧ dom m = list_to_set (dict_keys exps)
         ∧ size m = length exps
         ∧ constructed w' = constructed w ++ dict_keys exps)
  ∧ (is_Some (cfg_virtual_machines (_raw_config self)) →
     is_Some (cfg_benchmark_suites (_raw_config self)) →
     (∀ args e, ∃ x e', Experiment_init args e = (Ok x, e')) →
     ∃ conf_defs w',
       compile_experiments self cli_reporter run_filter w
       = (Ok conf_defs, w')).
Proof.
  intros Hn Hexps Hnd. unfold _compile_experiments. step.
  rewrite Hn, Hexps. simpl. unfold new_dict. simpl.
  set (l := fresh (dom (dicts w))).
  set (w0 := {| ext := ext w; dicts := <[l:=∅]> (dicts w);
                constructed := constructed w |}).
  split.
  - intros conf_defs w'.
    destruct (each self cli_reporter run_filter l (dict_keys exps) w0)
      as [[[]|ex] w1] eqn:Hloop; [|done].
    intros [= <- <-].
    split; [apply not_elem_of_dom, is_fresh|].
    eapply (each_ok _ _ _ _ _ _ _ ∅) in Hloop as (m & Hm & Hdom & Hcon);
      [|apply lookup_insert_eq].
    exists m. split; [done|]. rewrite dom_empty_L, (left_id_L ∅ (∪)) in Hdom.
    split; [done|]. split; [|done].
    rewrite <- size_dom, Hdom, size_list_to_set by done.
    unfold dict_keys. by rewrite length_map.
  - intros Hvms Hsuites Hinit.
    destruct (each_total self cli_reporter run_filter l exps (dict_keys exps)
                Hexps Hvms Hsuites Hinit (reflexivity _) w0) as [w1 ->].
    by eexists _, _.
Qed.

(** What [__init__] stores in [_experiments] is what
    [_compile_experiments] returned for the filter built from the
    tokens; loading and option processing create no dict and no
    experiment. *)
Lemma init_ok (file_name : string) (data_store : DataStore)
    (cli_options : option Options) cli_reporter
    (exp_name standard_data_file : option string)
    (tokens : option (list string)) w conf w' :
  init file_name data_store cli_options cli_reporter exp_name
    standard_data_file tokens w = (Ok conf, w') →
  ∃ run_filter w1,
    _RunFilter.__init__ tokens = Ok run_filter
    ∧ compile_experiments conf cli_reporter run_filter w1
      = (Ok (get_experiments conf), w')
    ∧ dicts w1 = dicts w
    ∧ constructed w1 = constructed w
    ∧ _exp_name conf = exp_name.
Proof.
  unfold __init__, load. step.
  destruct (_load_config file_name (ext w)) as [[raw|ex] e1]; [|done].
  destruct (_RunFilter.__init__ tokens) as [run_filter|ex]; [|done].
  match goal with |- context [_compile_experiments _ _ ?s _ _ ?w1] =>
    destruct (compile_experiments s cli_reporter run_filter w1)
      as [[l|ex] w2] eqn:Hc; [|done] end.
  intros [= <- <-]. by eexists _, _.
Qed.

Lemma invoke_world conf (m : method) w :
  (invoke Experiment_get_runs conf m w).2 = w.
Proof.
  destruct m as [| | | | | |key|]; simpl; try done; unfold fmap_result; step.
  - by destruct (experiment_name conf).
  - unfold get_experiment. by destruct (deref w (_experiments conf) !! key).
Qed.

(** C8: whatever a client calls on a constructed Configurator, and in
    whatever order, the state is left as it was (so the compiled dict
    keeps its contents), and every [get_experiments()] among the calls
    returns the same reference, that of [_experiments]. *)
Theorem get_experiments_same_dict conf (calls : list method) w :
  (session Experiment_get_runs conf calls w).2 = w
  ∧ ∀ i, calls !! i = Some m_get_experiments →
         (session Experiment_get_runs conf calls w).1 !! i
         = Some (Ok (v_dict (get_experiments conf))).
Proof.
  induction calls as [|m calls [IHw IHr]]; simpl.
  - split; [done|]. intros i Hi. by rewrite lookup_nil in Hi.
  - pose proof (invoke_world conf m w) as Hw.
    destruct (invoke Experiment_get_runs conf m w) as [r w1] eqn:Hm.
    simpl in Hw. subst w1.
    destruct (session Experiment_get_runs conf calls w) as [rs w2].
    simpl in *. split; [done|].
    intros [|i] Hi; simpl in *; [|by apply IHr].
    injection Hi as ->. simpl in Hm. unfold ret in Hm. by injection Hm as <-.
Qed.

(** C10: [get_experiment] with a name that is not a key of the compiled
    dict raises [KeyError] with that name, and changes nothing. *)
Theorem get_experiment_missing_key conf (name : string) w
    (m : gmap string Experiment) :
  dicts w !! get_experiments conf = Some m →
  m !! name = None →
  get_experiment conf name w = (Raise (KeyError name), w).
Proof.
  unfold get_experiment, get_experiments, deref. intros -> Hname. simpl.
  by rewrite Hname.
Qed.
End ConfiguratorFacts.

(** ** The properties on the sample configuration *)

Lemma unknown_experiment_rejected_witness :
  Sample.compile Sample.config (Some "Nope") Sample.world0
  = (Raise (ValueError "Requested experiment 'Nope' not available."),
     {| ext := 0; dicts := {[1%positive := ∅]}; constructed := [] |}).
Proof.
  apply (unknown_experiment_rejected tt Sample.Experiment_init
           (Sample.self0 Sample.config (Some "Nope")) None _RunFilter.empty
           Sample.world0 "Nope" [("Test", tt); ("Other", tt)]).
  - reflexivity.
  - discriminate.
  - discriminate.
  - reflexivity.
  - apply (bool_decide_unpack _). vm_compute. exact I.
Defined.

Lemma all_compiles_one_entry_per_key_witness :
  (∀ (conf_defs : loc) w',
     Sample.compile Sample.config (Some "all") Sample.world0
     = (Ok conf_defs, w') →
     dicts Sample.world0 !! conf_defs = None
     ∧ ∃ m : gmap string string,
         dicts w' !! get_experiments
                       {| base := Sample.self0 Sample.config (Some "all");
                          _experiments := conf_defs |}
         = Some m
         ∧ dom m = list_to_set ["Test"; "Other"]
         ∧ size m = 2
         ∧ constructed w' = ["Test"; "Other"])
  ∧ ∃ conf_defs w',
      Sample.compile Sample.config (Some "all") Sample.world0
      = (Ok conf_defs, w').
Proof.
  destruct (all_compiles_one_entry_per_key tt Sample.Experiment_init
              (Sample.self0 Sample.config (Some "all")) None _RunFilter.empty
              Sample.world0 [("Test", tt); ("Other", tt)])
    as [Hok Htotal].
  - reflexivity.
  - reflexivity.
  - apply (bool_decide_unpack _). vm_compute. exact I.
  - split; [exact Hok|]. apply Htotal.
    + by eexists.
    + by eexists.
    + intros args e. by eexists _, _.
Defined.

Lemma get_experiments_same_dict_witness :
  (session Sample.Experiment_get_runs (Sample.conf (Some "all"))
     [m_get_experiments; m_get_experiment "Nope"; m_get_runs;
      m_get_experiments] (Sample.world_of (Some "all"))).2
  = Sample.world_of (Some "all")
  ∧ (session Sample.Experiment_get_runs (Sample.conf (Some "all"))
       [m_get_experiments; m_get_experiment "Nope"; m_get_runs;
        m_get_experiments] (Sample.world_of (Some "all"))).1 !! 3
    = Some (Ok (v_dict 1%positive)).
Proof.
  destruct (get_experiments_same_dict Sample.Experiment_get_runs
              (Sample.conf (Some "all"))
              [m_get_experiments; m_get_experiment "Nope"; m_get_runs;
               m_get_experiments] (Sample.world_of (Some "all")))
    as [Hw Hr].
  split; [exact Hw|]. apply Hr. reflexivity.
Defined.

Lemma get_experiment_missing_key_witness :
  Sample.new "rebench.conf" (Some "Test") None Sample.world0
  = (Ok (Sample.conf (Some "Test")), Sample.world_of (Some "Test"))
  ∧ get_experiment (Sample.conf (Some "Test")) "Other"
      (Sample.world_of (Some "Test"))
    = (Raise (KeyError "Other"), Sample.world_of (Some "Test")).
Proof.
  split; [reflexivity|].
  apply (get_experiment_missing_key (Sample.conf (Some "Test")) "Other"
           (Sample.world_of (Some "Test")) {["Test" := "Test"]});
    reflexivity.
Defined.

(** C3: with no name from the command line and no [standard_experiment]
    key in the configuration, [experiment_name] fails on the
    subscription, and so does construction, with [KeyError]; the
    [ValueError] is raised only for a key that is present with a falsy
    value, and a name from the command line or the configuration is
    returned as it is. *)
Theorem missing_standard_experiment_key_error :
  experiment_name (Sample.self0 Sample.config_no_standard None)
  = Raise (KeyError "standard_experiment")
  ∧ Sample.compile Sample.config_no_standard None Sample.world0
    = (Raise (KeyError "standard_experiment"), Sample.world0)
  ∧ Sample.new "no_standard.conf" None None Sample.world0
    = (Raise (KeyError "standard_experiment"), Sample.world0)
  ∧ experiment_name (Sample.self0 Sample.config (Some "Other"))
    = Ok (Some "Other")
  ∧ experiment_name (Sample.self0 Sample.config None) = Ok (Some "Test")
  ∧ Sample.compile
      {| cfg_runs := None; cfg_standard_data_file := None;
         cfg_standard_experiment := Some None;
         cfg_experiments := Some [("Test", tt)];
         cfg_virtual_machines := Some tt; cfg_benchmark_suites := Some tt;
         cfg_reporting := None; cfg_build_log := None |}
      None Sample.world0
    = (Raise (ValueError "No experiment chosen."), Sample.world0).
Proof. repeat split. Qed.

(** ** More on run filters: which tokens are accepted, and what the
    filter built from a token list is *)

(** The filter with the matchers of [a] followed by those of [b]. *)
Abbreviation joined a b :=
  {| _RunFilter._vm_filters :=
       _RunFilter._vm_filters a ++ _RunFilter._vm_filters b;
     _RunFilter._suite_filters :=
       _RunFilter._suite_filters a ++ _RunFilter._suite_filters b |}.

(** The shapes of [split ":" tok] that [add_filter] accepts. *)
Abbreviation accepted tok :=
  ((∃ p1 rest, split ":" tok = "vm" :: p1 :: rest)
   ∨ (∃ p1, split ":" tok = ["s"; p1])
   ∨ (∃ p1 p2, split ":" tok = ["s"; p1; p2])).

Lemma add_filter_shift (self : _RunFilter.t) (tok : string) :
  _RunFilter.add_filter self tok
  = (d ← _RunFilter.add_filter _RunFilter.empty tok; Ok (joined self d)).
Proof.
  unfold _RunFilter.add_filter.
  destruct (split ":" tok) as [|p0 ps] eqn:Hparts;
    [by apply split_not_nil in Hparts|].
  simpl. destruct (String.eqb p0 "vm").
  { destruct ps as [|p1 ps]; simpl; [done|]. by rewrite !app_nil_r. }
  destruct (String.eqb p0 "s"); simpl; [|done].
  destruct ps as [|p1 [|p2 [|p3 ps]]]; simpl; try done;
    by rewrite !app_nil_r.
Qed.

Lemma add_filters_shift (self : _RunFilter.t) (tokens : list string) :
  _RunFilter.add_filters self tokens
  = (d ← _RunFilter.add_filters _RunFilter.empty tokens; Ok (joined self d)).
Proof.
  revert self. induction tokens as [|tok tokens IH]; intros self; simpl.
  - destruct self. by rewrite !app_nil_r.
  - rewrite (add_filter_shift self tok).
    destruct (_RunFilter.add_filter _RunFilter.empty tok) as [d|e]; simpl;
      [|done].
    rewrite (IH (joined self d)), (IH d).
    destruct (_RunFilter.add_filters _RunFilter.empty tokens) as [d'|e];
      simpl; [|done].
    by rewrite !app_assoc.
Qed.

Lemma add_filter_accepts (self : _RunFilter.t) (tok : string) :
  (∃ self', _RunFilter.add_filter self tok = Ok self') ↔ accepted tok.
Proof.
  unfold _RunFilter.add_filter.
  destruct (split ":" tok) as [|p0 ps] eqn:Hparts;
    [by apply split_not_nil in Hparts|].
  simpl. destruct (String.eqb_spec p0 "vm") as [->|Hvm].
  { destruct ps as [|p1 ps]; simpl.
    - split; [by intros [? ?]|].
      intros [(? & ? & ?)|[[? ?]|(? & ? & ?)]]; done.
    - split; [|by eexists]. intros _. left. by exists p1, ps. }
  destruct (String.eqb_spec p0 "s") as [->|Hs]; simpl.
  - destruct ps as [|p1 [|p2 [|p3 ps]]]; simpl.
    + split; [by intros [? ?]|].
      intros [(? & ? & ?)|[[? ?]|(? & ? & ?)]]; done.
    + split; [|by eexists]. intros _. right. left. by exists p1.
    + split; [|by eexists]. intros _. right. right. by exists p1, p2.
    + split; [by intros [? ?]|].
      intros [(? & ? & ?)|[[? ?]|(? & ? & ?)]]; done.
  - split; [by intros [? ?]|].
    intros [(? & ? & ?)|[[? ?]|(? & ? & ?)]]; congruence.
Qed.

(** X1: the constructor succeeds on a token list exactly when every
    token splits into ["vm"] and at least one more part, or into ["s"]
    and one or two more parts. *)
Theorem init_succeeds_iff_all_accepted (tokens : list string) :
  (∃ self, _RunFilter.__init__ (Some tokens) = Ok self)
  ↔ Forall (λ tok, accepted tok) tokens.
Proof.
  rewrite init_some. generalize _RunFilter.empty.
  induction tokens as [|tok tokens IH]; intros self; simpl.
  - split; [by constructor|by eexists].
  - rewrite Forall_cons, <- (add_filter_accepts self tok). split.
    + intros [self' Hs].
      destruct (_RunFilter.add_filter self tok) as [self1|e]; simpl in Hs;
        [|done].
      split; [by eexists|]. apply (IH self1). by eexists.
    + intros [[self1 ->] Hrest]. simpl. by apply IH.
Qed.

Lemma add_filter_error (self : _RunFilter.t) (tok : string) (e : exn) :
  _RunFilter.add_filter self tok = Raise e →
  (split ":" tok = ["vm"] ∧ e = IndexError "list index out of range")
  ∨ (hd "" (split ":" tok) ≠ "vm"
     ∧ e = Exception ("Unknown filter expression: " +:+ tok)).
Proof.
  unfold _RunFilter.add_filter.
  destruct (split ":" tok) as [|p0 ps] eqn:Hparts;
    [by apply split_not_nil in Hparts|].
  simpl. destruct (String.eqb_spec p0 "vm") as [->|Hvm].
  { destruct ps as [|p1 ps]; simpl; [|done]. intros [= <-]. by left. }
  destruct (String.eqb p0 "s"); simpl.
  - destruct ps as [|p1 [|p2 [|p3 ps]]]; simpl; try done;
      intros [= <-]; by right.
  - intros [= <-]. by right.
Qed.

(** X2: when the constructor fails, the token list is some accepted
    tokens followed by a token that is not, and the error is that
    token's: [IndexError] if it is just ["vm"], otherwise the
    [Exception] that quotes it; the tokens after it play no part. *)
Theorem init_fails_at_first_bad_token (tokens : list string) (e : exn) :
  _RunFilter.__init__ (Some tokens) = Raise e →
  ∃ pre bad post,
    tokens = pre ++ bad :: post
    ∧ Forall (λ tok, accepted tok) pre
    ∧ ¬ accepted bad
    ∧ ((split ":" bad = ["vm"] ∧ e = IndexError "list index out of range")
       ∨ (hd "" (split ":" bad) ≠ "vm"
          ∧ e = Exception ("Unknown filter expression: " +:+ bad)))
    ∧ ∀ post', _RunFilter.__init__ (Some (pre ++ bad :: post')) = Raise e.
Proof.
  rewrite init_some.
  assert (∀ self, _RunFilter.add_filters self tokens = Raise e →
    ∃ pre bad post, tokens = pre ++ bad :: post
      ∧ Forall (λ tok, accepted tok) pre ∧ ¬ accepted bad
      ∧ ((split ":" bad = ["vm"] ∧ e = IndexError "list index out of range")
         ∨ (hd "" (split ":" bad) ≠ "vm"
            ∧ e = Exception ("Unknown filter expression: " +:+ bad)))
      ∧ ∀ post', _RunFilter.add_filters self (pre ++ bad :: post') = Raise e)
    as Hgen.
  { induction tokens as [|tok tokens IH]; intros self; simpl; [done|].
    destruct (_RunFilter.add_filter self tok) as [self1|e1] eqn:Htok; simpl.
    - intros Hrest. destruct (IH self1 Hrest)
        as (pre & bad & post & -> & Hpre & Hbad & He & Hpost).
      exists (tok :: pre), bad, post. split; [done|]. split.
      { constructor; [|done]. apply (add_filter_accepts self). by eexists. }
      split; [done|]. split; [done|]. intros post'. simpl.
      rewrite Htok. simpl. apply Hpost.
    - intros [= ->]. exists [], tok, tokens. split; [done|].
      split; [constructor|]. split.
      { rewrite <- (add_filter_accepts self). intros [? ?]. congruence. }
      split; [by apply (add_filter_error self)|].
      intros post'. simpl. by rewrite Htok. }
  intros Hfail. destruct (Hgen _ Hfail)
    as (pre & bad & post & -> & Hpre & Hbad & He & Hpost).
  exists pre, bad, post. repeat (split; [done|]).
  intros post'. rewrite init_some. apply Hpost.
Qed.

Lemma init_fails_at_first_bad_token_witness :
  ∃ pre bad post,
    ["s:a"; "vm"; "nope"] = pre ++ bad :: post
    ∧ Forall (λ tok, accepted tok) pre
    ∧ ¬ accepted bad
    ∧ ((split ":" bad = ["vm"]
        ∧ IndexError "list index out of range"
          = IndexError "list index out of range")
       ∨ (hd "" (split ":" bad) ≠ "vm"
          ∧ IndexError "list index out of range"
            = Exception ("Unknown filter expression: " +:+ bad)))
    ∧ ∀ post', _RunFilter.__init__ (Some (pre ++ bad :: post'))
               = Raise (IndexError "list index out of range").
Proof.
  apply (init_fails_at_first_bad_token ["s:a"; "vm"; "nope"]). reflexivity.
Defined.

Lemma add_filters_cons_empty (tok : string) (tokens : list string) :
  _RunFilter.add_filters _RunFilter.empty (tok :: tokens)
  = (d ← _RunFilter.add_filter _RunFilter.empty tok;
     r ← _RunFilter.add_filters _RunFilter.empty tokens;
     Ok (joined d r)).
Proof.
  simpl. destruct (_RunFilter.add_filter _RunFilter.empty tok) as [d|e];
    simpl; [|done].
  apply add_filters_shift.
Qed.

(** What one accepted token contributes: one matcher, in the bucket
    that its first part names. *)
Lemma add_filter_one (tok : string) (d : _RunFilter.t) :
  _RunFilter.add_filter _RunFilter.empty tok = Ok d →
  (hd "" (split ":" tok) = "vm"
   ∧ (∃ f, _RunFilter._vm_filters d = [f]) ∧ _RunFilter._suite_filters d = [])
  ∨ (hd "" (split ":" tok) = "s"
     ∧ _RunFilter._vm_filters d = []
     ∧ ∃ f, _RunFilter._suite_filters d = [f]).
Proof.
  unfold _RunFilter.add_filter.
  destruct (split ":" tok) as [|p0 ps] eqn:Hparts;
    [by apply split_not_nil in Hparts|].
  simpl. destruct (String.eqb_spec p0 "vm") as [->|Hvm].
  { destruct ps as [|p1 ps]; simpl; [done|]. intros [= <-]. left. simpl.
    split; [done|]. split; [by eexists|done]. }
  destruct (String.eqb_spec p0 "s") as [->|Hs]; simpl; [|done].
  destruct ps as [|p1 [|p2 [|p3 ps]]]; simpl; try done;
    intros [= <-]; right; simpl; (split; [done|]); (split; [done|]);
    by eexists.
Qed.

(** X3: in a filter built from a token list there is one matcher per
    token: the VM bucket has as many matchers as there are tokens whose
    first part is ["vm"], the suite bucket as many as there are tokens
    whose first part is ["s"]. *)
Theorem bucket_sizes_count_tokens (tokens : list string) (self : _RunFilter.t) :
  _RunFilter.__init__ (Some tokens) = Ok self →
  length (_RunFilter._vm_filters self)
  = length (List.filter (λ tok, String.eqb (hd "" (split ":" tok)) "vm") tokens)
  ∧ length (_RunFilter._suite_filters self)
    = length (List.filter (λ tok, String.eqb (hd "" (split ":" tok)) "s")
                tokens)
  ∧ length (_RunFilter._vm_filters self)
    + length (_RunFilter._suite_filters self) = length tokens.
Proof.
  rewrite init_some. revert self.
  induction tokens as [|tok tokens IH]; intros self.
  - simpl. by intros [= <-].
  - rewrite add_filters_cons_empty.
    destruct (_RunFilter.add_filter _RunFilter.empty tok) as [d|e] eqn:Hd;
      simpl; [|done].
    destruct (_RunFilter.add_filters _RunFilter.empty tokens) as [r|e];
      simpl; [|done].
    intros [= <-]. simpl. destruct (IH r eq_refl) as (Hv & Hs & Hsum).
    rewrite !length_app, Hv, Hs.
    destruct (add_filter_one tok d Hd)
      as [(-> & [f ->] & ->)|(-> & -> & [f ->])]; simpl;
      rewrite <- Hsum, Hv, Hs; repeat split; lia.
Qed.

Lemma bucket_sizes_count_tokens_witness :
  length [_VMFilter.__init__ "a"; _VMFilter.__init__ "b"] = 2
  ∧ length [SuiteObj (_SuiteFilter.__init__ "x")] = 1
  ∧ length [_VMFilter.__init__ "a"; _VMFilter.__init__ "b"]
    + length [SuiteObj (_SuiteFilter.__init__ "x")] = 3.
Proof.
  apply (bucket_sizes_count_tokens ["vm:a"; "s:x"; "vm:b:c"]
           {| _RunFilter._vm_filters :=
                [_VMFilter.__init__ "a"; _VMFilter.__init__ "b"];
              _RunFilter._suite_filters :=
                [SuiteObj (_SuiteFilter.__init__ "x")] |}).
  reflexivity.
Defined.

(** X4: the filter for two token lists one after the other has, in each
    bucket, the matchers of the first list's filter followed by those of
    the second's. *)
Theorem init_of_concatenation (l1 l2 : list string) (a b : _RunFilter.t) :
  _RunFilter.__init__ (Some l1) = Ok a →
  _RunFilter.__init__ (Some l2) = Ok b →
  _RunFilter.__init__ (Some (l1 ++ l2)) = Ok (joined a b).
Proof.
  rewrite !init_some, add_filters_app. intros -> Hb. simpl.
  by rewrite add_filters_shift, Hb.
Qed.

Lemma init_of_concatenation_witness :
  _RunFilter.__init__ (Some (["vm:a"; "s:x"] ++ ["s:y:z"; "vm:b"]))
  = Ok {| _RunFilter._vm_filters :=
            [_VMFilter.__init__ "a"] ++ [_VMFilter.__init__ "b"];
          _RunFilter._suite_filters :=
            [SuiteObj (_SuiteFilter.__init__ "x")]
              ++ [BenchmarkObj (_BenchmarkFilter.__init__ "y" "z")] |}.
Proof.
  apply (init_of_concatenation ["vm:a"; "s:x"] ["s:y:z"; "vm:b"]
           {| _RunFilter._vm_filters := [_VMFilter.__init__ "a"];
              _RunFilter._suite_filters :=
                [SuiteObj (_SuiteFilter.__init__ "x")] |}
           {| _RunFilter._vm_filters := [_VMFilter.__init__ "b"];
              _RunFilter._suite_filters :=
                [BenchmarkObj (_BenchmarkFilter.__init__ "y" "z")] |});
    reflexivity.
Defined.

Lemma match_permutation {F} `{Matcher F} (l l' : list F) (bench : Benchmark) :
  l ≡ₚ l' → _RunFilter._match l bench = _RunFilter._match l' bench.
Proof.
  intros Hp. apply eq_true_iff_eq. rewrite !match_true.
  assert (l = [] ↔ l' = []) as Hnil.
  { split; intros ->; [|symmetry in Hp]; by apply Permutation_nil in Hp. }
  assert ((∃ f, f ∈ l ∧ matches f bench = true)
          ↔ (∃ f, f ∈ l' ∧ matches f bench = true)) as Hex.
  { split; intros (f & Hf & Hm); exists f; (split; [|done]);
      [by rewrite <- Hp|by rewrite Hp]. }
  by rewrite Hnil, Hex.
Qed.

Lemma add_filters_permutation (tokens tokens' : list string) :
  tokens ≡ₚ tokens' →
  ∀ rf, _RunFilter.add_filters _RunFilter.empty tokens = Ok rf →
        ∃ rf', _RunFilter.add_filters _RunFilter.empty tokens' = Ok rf'
               ∧ _RunFilter._vm_filters rf' ≡ₚ _RunFilter._vm_filters rf
               ∧ _RunFilter._suite_filters rf'
                 ≡ₚ _RunFilter._suite_filters rf.
Proof.
  induction 1 as [|x l l' Hp IH|x y l|l l' l'' Hp IH Hp' IH']; intros rf.
  - intros [= <-]. by exists _RunFilter.empty.
  - rewrite !add_filters_cons_empty.
    destruct (_RunFilter.add_filter _RunFilter.empty x) as [d|e]; simpl;
      [|done].
    destruct (_RunFilter.add_filters _RunFilter.empty l) as [r|e]; simpl;
      [|done].
    destruct (IH r eq_refl) as (r' & -> & Hv & Hs). simpl.
    intros [= <-]. eexists. split; [done|]. simpl. by rewrite Hv, Hs.
  - rewrite (add_filters_cons_empty y (x :: l)),
      (add_filters_cons_empty x (y :: l)),
      (add_filters_cons_empty x l), (add_filters_cons_empty y l).
    destruct (_RunFilter.add_filter _RunFilter.empty y) as [dy|e]; simpl;
      [|done].
    destruct (_RunFilter.add_filter _RunFilter.empty x) as [dx|e]; simpl;
      [|done].
    destruct (_RunFilter.add_filters _RunFilter.empty l) as [r|e]; simpl;
      [|done].
    intros [= <-]. eexists. split; [done|]. simpl.
    split; rewrite !app_assoc; apply Permutation_app_tail, Permutation_app_comm.
  - intros Hrf. destruct (IH rf Hrf) as (rf1 & Hrf1 & Hv1 & Hs1).
    destruct (IH' rf1 Hrf1) as (rf2 & Hrf2 & Hv2 & Hs2).
    exists rf2. split; [done|]. split; [by rewrite Hv2|by rewrite Hs2].
Qed.

(** X5: the order of the tokens does not matter: if the constructor
    accepts a token list it accepts every rearrangement of it, with the
    same matchers in each bucket up to order, and the two filters apply
    to the same benchmarks. *)
Theorem token_order_irrelevant (tokens tokens' : list string)
    (rf : _RunFilter.t) :
  tokens ≡ₚ tokens' →
  _RunFilter.__init__ (Some tokens) = Ok rf →
  ∃ rf', _RunFilter.__init__ (Some tokens') = Ok rf'
         ∧ _RunFilter._vm_filters rf' ≡ₚ _RunFilter._vm_filters rf
         ∧ _RunFilter._suite_filters rf' ≡ₚ _RunFilter._suite_filters rf
         ∧ ∀ bench, _RunFilter.applies rf' bench = _RunFilter.applies rf bench.
Proof.
  rewrite !init_some. intros Hp Hrf.
  destruct (add_filters_permutation tokens tokens' Hp rf Hrf)
    as (rf' & Hrf' & Hv & Hs).
  exists rf'. repeat (split; [done|]). intros bench.
  unfold _RunFilter.applies.
  by rewrite (match_permutation _ _ bench Hv), (match_permutation _ _ bench Hs).
Qed.

Lemma token_order_irrelevant_witness :
  ∃ rf', _RunFilter.__init__ (Some ["s:x"; "vm:b"; "vm:a"]) = Ok rf'
         ∧ _RunFilter._vm_filters rf'
           ≡ₚ [_VMFilter.__init__ "a"; _VMFilter.__init__ "b"]
         ∧ _RunFilter._suite_filters rf'
           ≡ₚ [SuiteObj (_SuiteFilter.__init__ "x")]
         ∧ ∀ bench,
             _RunFilter.applies rf' bench
             = _RunFilter.applies
                 {| _RunFilter._vm_filters :=
                      [_VMFilter.__init__ "a"; _VMFilter.__init__ "b"];
                    _RunFilter._suite_filters :=
                      [SuiteObj (_SuiteFilter.__init__ "x")] |} bench.
Proof.
  apply (token_order_irrelevant ["vm:a"; "s:x"; "vm:b"]
           ["s:x"; "vm:b"; "vm:a"]
           {| _RunFilter._vm_filters :=
                [_VMFilter.__init__ "a"; _VMFilter.__init__ "b"];
              _RunFilter._suite_filters :=
                [SuiteObj (_SuiteFilter.__init__ "x")] |}).
  - change ["s:x"; "vm:b"; "vm:a"] with (["s:x"; "vm:b"] ++ ["vm:a"]).
    apply (Permutation_cons_append ["s:x"; "vm:b"] "vm:a").
  - reflexivity.
Defined.

Lemma split_no_sep (sep : ascii) (s : string) :
  sep ∉ list_ascii_of_string s → split sep s = [s].
Proof.
  induction s as [|c s IH]; simpl; [done|]. intros Hn.
  apply not_elem_of_cons in Hn as [Hc Hs].
  destruct (Ascii.eqb_spec c sep) as [->|_]; [done|]. by rewrite (IH Hs).
Qed.

Lemma split_sep_app (sep : ascii) (a b : string) :
  sep ∉ list_ascii_of_string a →
  split sep (a +:+ String sep b) = a :: split sep b.
Proof.
  induction a as [|c a IH]; simpl.
  - intros _. by rewrite Ascii.eqb_refl.
  - intros Hn. apply not_elem_of_cons in Hn as [Hc Ha].
    destruct (Ascii.eqb_spec c sep) as [->|_]; [done|]. by rewrite (IH Ha).
Qed.

Lemma add_filter_suite (self : _RunFilter.t) (tok p1 : string) :
  split ":" tok = ["s"; p1] →
  _RunFilter.add_filter self tok
  = Ok {| _RunFilter._vm_filters := _RunFilter._vm_filters self;
          _RunFilter._suite_filters :=
            _RunFilter._suite_filters self
              ++ [SuiteObj (_SuiteFilter.__init__ p1)] |}.
Proof. intros Hparts. unfold _RunFilter.add_filter. by rewrite Hparts. Qed.

Lemma add_filter_benchmark (self : _RunFilter.t) (tok p1 p2 : string) :
  split ":" tok = ["s"; p1; p2] →
  _RunFilter.add_filter self tok
  = Ok {| _RunFilter._vm_filters := _RunFilter._vm_filters self;
          _RunFilter._suite_filters :=
            _RunFilter._suite_filters self
              ++ [BenchmarkObj (_BenchmarkFilter.__init__ p1 p2)] |}.
Proof. intros Hparts. unfold _RunFilter.add_filter. by rewrite Hparts. Qed.

(** X6: tokens written from names that contain no colon are read back
    as the matchers for exactly these names; and the filter for a VM
    token and a benchmark token applies to the benchmarks with that VM
    name, suite name and own name, and to no other. *)
Theorem tokens_of_names_round_trip (v s b : string) :
  ":"%char ∉ list_ascii_of_string v →
  ":"%char ∉ list_ascii_of_string s →
  ":"%char ∉ list_ascii_of_string b →
  _RunFilter.__init__
    (Some ["vm:" +:+ v; "s:" +:+ s; "s:" +:+ s +:+ ":" +:+ b])
  = Ok {| _RunFilter._vm_filters := [_VMFilter.__init__ v];
          _RunFilter._suite_filters :=
            [SuiteObj (_SuiteFilter.__init__ s);
             BenchmarkObj (_BenchmarkFilter.__init__ s b)] |}
  ∧ ∃ rf, _RunFilter.__init__ (Some ["vm:" +:+ v; "s:" +:+ s +:+ ":" +:+ b])
          = Ok rf
          ∧ ∀ bench,
              _RunFilter.applies rf bench = true
              ↔ VM.name (vm bench) = v
                ∧ Suite.name (suite bench) = s
                ∧ name bench = b.
Proof.
  intros Hv Hs Hb.
  assert (split ":" ("vm:" +:+ v) = ["vm"; v]) as Hvm.
  { change ("vm:" +:+ v) with (String "v" (String "m" (String ":" v))).
    simpl. by rewrite (split_no_sep _ _ Hv). }
  assert (split ":" ("s:" +:+ s) = ["s"; s]) as Hsuite.
  { change ("s:" +:+ s) with (String "s" (String ":" s)).
    simpl. by rewrite (split_no_sep _ _ Hs). }
  assert (split ":" ("s:" +:+ s +:+ ":" +:+ b) = ["s"; s; b]) as Hbench.
  { change ("s:" +:+ s +:+ ":" +:+ b)
      with (String "s" (String ":" (s +:+ String ":" b))).
    simpl. by rewrite (split_sep_app _ _ _ Hs), (split_no_sep _ _ Hb). }
  split.
  - rewrite init_some. cbn [_RunFilter.add_filters].
    rewrite (add_filter_vm _ _ _ _ Hvm). cbn [mbind result_bind].
    rewrite (add_filter_suite _ _ _ Hsuite). cbn [mbind result_bind].
    by rewrite (add_filter_benchmark _ _ _ _ Hbench).
  - eexists. split.
    + rewrite init_some. cbn [_RunFilter.add_filters].
      rewrite (add_filter_vm _ _ _ _ Hvm). cbn [mbind result_bind].
      by rewrite (add_filter_benchmark _ _ _ _ Hbench).
    + intros bench. unfold _RunFilter.applies. simpl.
      unfold matches, VMFilter_Matcher, suite_filter_obj_Matcher,
        _VMFilter.matches, _BenchmarkFilter.matches, _SuiteFilter.matches.
      simpl.
      destruct (String.eqb_spec (VM.name (vm bench)) v);
        destruct (String.eqb_spec (Suite.name (suite bench)) s);
        destruct (String.eqb_spec (name bench) b); simpl;
        split; try done; intros (? & ? & ?); done.
Qed.

Lemma tokens_of_names_round_trip_witness :
  _RunFilter.__init__
    (Some ["vm:" +:+ "JRuby"; "s:" +:+ "Suite1";
           "s:" +:+ "Suite1" +:+ ":" +:+ "BenchA"])
  = Ok {| _RunFilter._vm_filters := [_VMFilter.__init__ "JRuby"];
          _RunFilter._suite_filters :=
            [SuiteObj (_SuiteFilter.__init__ "Suite1");
             BenchmarkObj (_BenchmarkFilter.__init__ "Suite1" "BenchA")] |}
  ∧ ∃ rf,
      _RunFilter.__init__
        (Some ["vm:" +:+ "JRuby"; "s:" +:+ "Suite1" +:+ ":" +:+ "BenchA"])
      = Ok rf
      ∧ ∀ bench,
          _RunFilter.applies rf bench = true
          ↔ VM.name (vm bench) = "JRuby"
            ∧ Suite.name (suite bench) = "Suite1"
            ∧ name bench = "BenchA".
Proof.
  apply (tokens_of_names_round_trip "JRuby" "Suite1" "BenchA");
    apply (bool_decide_unpack _); vm_compute; exact I.
Defined.

(** X7: one more token at the end of an accepted list. If the bucket it
    goes to already had a matcher, every benchmark the filter applied to
    is still applied to (the filter can only widen); if that bucket was
    empty, the new filter applies only to benchmarks the old one applied
    to (it can only narrow). *)
Theorem appended_token_widens_or_narrows
    (tokens : list string) (tok : string) (rf rf' : _RunFilter.t)
    (bench : Benchmark) :
  _RunFilter.__init__ (Some tokens) = Ok rf →
  _RunFilter.__init__ (Some (tokens ++ [tok])) = Ok rf' →
  (hd "" (split ":" tok) = "vm" ∨ hd "" (split ":" tok) = "s")
  ∧ (hd "" (split ":" tok) = "vm" → _RunFilter._vm_filters rf ≠ [] →
     _RunFilter.applies rf bench = true → _RunFilter.applies rf' bench = true)
  ∧ (hd "" (split ":" tok) = "s" → _RunFilter._suite_filters rf ≠ [] →
     _RunFilter.applies rf bench = true → _RunFilter.applies rf' bench = true)
  ∧ (hd "" (split ":" tok) = "vm" → _RunFilter._vm_filters rf = [] →
     _RunFilter.applies rf' bench = true → _RunFilter.applies rf bench = true)
  ∧ (hd "" (split ":" tok) = "s" → _RunFilter._suite_filters rf = [] →
     _RunFilter.applies rf' bench = true → _RunFilter.applies rf bench = true).
Proof.
  rewrite !init_some, add_filters_app. intros -> Hrf'. simpl in Hrf'.
  rewrite add_filter_shift in Hrf'.
  destruct (_RunFilter.add_filter _RunFilter.empty tok) as [d|e] eqn:Hd;
    simpl in Hrf'; [|done].
  injection Hrf' as <-. unfold _RunFilter.applies. simpl.
  destruct (add_filter_one tok d Hd)
    as [(Hhd & [f ->] & ->)|(Hhd & -> & [f ->])];
    rewrite Hhd, ?app_nil_r; (split; [by auto|]);
    rewrite !andb_true_iff, !match_true.
  - split; [|split; [by intros [=]|split; [|by intros [=]]]].
    + intros _ Hne [[?|(g & Hg & Hm)] Hs]; [done|]. split; [|done]. right.
      exists g. split; [|done]. apply elem_of_app. by left.
    + intros _ Hnil [_ Hs]. split; [by left|done].
  - split; [by intros [=]|split; [|split; [by intros [=]|]]].
    + intros _ Hne [Hv [?|(g & Hg & Hm)]]; [done|]. split; [done|]. right.
      exists g. split; [|done]. apply elem_of_app. by left.
    + intros _ Hnil [Hv _]. split; [done|by left].
Qed.

Lemma appended_token_widens_or_narrows_witness :
  (hd "" (split ":" "vm:b") = "vm" ∨ hd "" (split ":" "vm:b") = "s")
  ∧ (hd "" (split ":" "vm:b") = "vm" → [_VMFilter.__init__ "a"] ≠ [] →
     _RunFilter.applies
       {| _RunFilter._vm_filters := [_VMFilter.__init__ "a"];
          _RunFilter._suite_filters := [] |}
       {| vm := {| VM.name := "a" |}; suite := {| Suite.name := "x" |};
          name := "n" |} = true →
     _RunFilter.applies
       {| _RunFilter._vm_filters :=
            [_VMFilter.__init__ "a"; _VMFilter.__init__ "b"];
          _RunFilter._suite_filters := [] |}
       {| vm := {| VM.name := "a" |}; suite := {| Suite.name := "x" |};
          name := "n" |} = true).
Proof.
  destruct (appended_token_widens_or_narrows ["vm:a"] "vm:b"
              {| _RunFilter._vm_filters := [_VMFilter.__init__ "a"];
                 _RunFilter._suite_filters := [] |}
              {| _RunFilter._vm_filters :=
                   [_VMFilter.__init__ "a"; _VMFilter.__init__ "b"];
                 _RunFilter._suite_filters := [] |}
              {| vm := {| VM.name := "a" |}; suite := {| Suite.name := "x" |};
                 name := "n" |} eq_refl eq_refl) as (Hhd & Hwiden & _).
  split; [exact Hhd|exact Hwiden].
Defined.

(** ** More on the Configurator: what compilation touches, in which
    order, and what construction stores *)

Section ConfiguratorMore.
Context {ExpDef VMs Suites Reporting Runs RunsCfg : Type}.
Context {DataStore Reporter Experiment W : Type}.
Context `{Countable Run}.

Variable _load_config :
  string -> W -> result (@RawConfig ExpDef VMs Suites Reporting Runs) * W.
Variable RunsConfig_init : Runs -> RunsCfg.
Variable empty_runs : Runs.
Variable empty_reporting : Reporting.
Variable can_set_niceness : W -> bool.
Variable Experiment_init :
  @ExperimentArgs ExpDef VMs Suites Reporting RunsCfg DataStore Reporter
  -> W -> result Experiment * W.
Variable Experiment_get_runs : Experiment -> gset Run.

Abbreviation Conf0 :=
  (@Configurator0 ExpDef VMs Suites Reporting Runs RunsCfg DataStore).
Abbreviation Conf :=
  (@Configurator ExpDef VMs Suites Reporting Runs RunsCfg DataStore).
Abbreviation world := (@World Experiment W).
Abbreviation compile_experiment :=
  (_compile_experiment empty_reporting Experiment_init).
Abbreviation compile_experiments :=
  (_compile_experiments empty_reporting Experiment_init).
Abbreviation each := (compile_each empty_reporting Experiment_init).
Abbreviation init :=
  (__init__ _load_config RunsConfig_init empty_runs empty_reporting
     can_set_niceness Experiment_init).

(** The arguments [_compile_experiment] calls [Experiment(...)] with. *)
Abbreviation args_for self exp_name exp_def vms suites cli_reporter run_filter :=
  {| arg_name := exp_name;
     arg_exp_def := exp_def;
     arg_run_cfg := runs self;
     arg_virtual_machines := vms;
     arg_benchmark_suites := suites;
     arg_reporting := default empty_reporting (cfg_reporting (_raw_config self));
     arg_data_store := _data_store self;
     arg_standard_data_file := cfg_standard_data_file (_raw_config self);
     arg_clean := match _options self with
                  | Some o => clean o
                  | None => false
                  end;
     arg_cli_reporter := cli_reporter;
     arg_run_filter := run_filter;
     arg_options := _options self |}.

Implicit Types (self : Conf0) (conf : Conf) (w : world).
Implicit Types (cli_reporter : option Reporter) (run_filter : _RunFilter.t).

Set Default Proof Using "Type".

Ltac step := unfold mbind, bind, lift, ret, raise; simpl.

(** What one call of [_compile_experiment] does, whatever its outcome:
    no dict is touched; the constructor is called at most once, and it
    is called unless a key is missing. *)
Lemma compile_experiment_any
    self (exp_name : string) cli_reporter run_filter w
    (r : result Experiment) w' :
  compile_experiment self exp_name cli_reporter run_filter w = (r, w') →
  dicts w' = dicts w
  ∧ ((w' = w ∧ ∃ key, r = Raise (KeyError key))
     ∨ constructed w' = constructed w ++ [exp_name]).
Proof.
  unfold _compile_experiment, new_Experiment. step.
  destruct (subscript "experiments" _) as [exps|e0] eqn:H0; simpl.
  2:{ intros [= <- <-]. split; [done|]. left. split; [done|].
      unfold subscript in H0. destruct (cfg_experiments _); [done|].
      injection H0 as <-. by eexists. }
  destruct (dict_getitem exps exp_name) as [exp_def|e1] eqn:H1; simpl.
  2:{ intros [= <- <-]. split; [done|]. left. split; [done|].
      unfold dict_getitem in H1. destruct (find _ _); [done|].
      injection H1 as <-. by eexists. }
  destruct (subscript "virtual_machines" _) as [vms|e2] eqn:H2; simpl.
  2:{ intros [= <- <-]. split; [done|]. left. split; [done|].
      unfold subscript in H2. destruct (cfg_virtual_machines _); [done|].
      injection H2 as <-. by eexists. }
  destruct (subscript "benchmark_suites" _) as [suites|e3] eqn:H3; simpl.
  2:{ intros [= <- <-]. split; [done|]. left. split; [done|].
      unfold subscript in H3. destruct (cfg_benchmark_suites _); [done|].
      injection H3 as <-. by eexists. }
  destruct (Experiment_init _ _) as [r0 e']. intros [= <- <-]. simpl.
  split; [done|]. by right.
Qed.

(** A successful [_compile_experiment] is one successful constructor
    call, for the definition stored under the name and with the
    Configurator's own settings. *)
Lemma compile_experiment_inv
    self (exp_name : string) cli_reporter run_filter w (e : Experiment) w' :
  compile_experiment self exp_name cli_reporter run_filter w = (Ok e, w') →
  ∃ exps exp_def vms suites,
    cfg_experiments (_raw_config self) = Some exps
    ∧ dict_getitem exps exp_name = Ok exp_def
    ∧ cfg_virtual_machines (_raw_config self) = Some vms
    ∧ cfg_benchmark_suites (_raw_config self) = Some suites
    ∧ Experiment_init
        (args_for self exp_name exp_def vms suites cli_reporter run_filter)
        (ext w) = (Ok e, ext w')
    ∧ dicts w' = dicts w
    ∧ constructed w' = constructed w ++ [exp_name].
Proof.
  unfold _compile_experiment, new_Experiment. step.
  destruct (cfg_experiments (_raw_config self)) as [exps|]; simpl; [|done].
  destruct (dict_getitem exps exp_name) as [exp_def|] eqn:Hdef; simpl; [|done].
  destruct (cfg_virtual_machines (_raw_config self)) as [vms|]; simpl; [|done].
  destruct (cfg_benchmark_suites (_raw_config self)) as [suites|]; simpl;
    [|done].
  destruct (Experiment_init _ _) as [r0 e'] eqn:Hinit. intros [= -> <-].
  exists exps, exp_def, vms, suites. simpl. by repeat split.
Qed.

(** The loop, whatever its outcome: only the dict [conf_defs] can
    change, no dict appears or disappears, and the constructor calls
    made are those for an initial stretch of the names, all of them if
    the loop succeeds. *)
Lemma each_any self cli_reporter run_filter (conf_defs : loc)
    (names : list string) :
  ∀ w (r : result ()) w',
    each self cli_reporter run_filter conf_defs names w = (r, w') →
    (∀ l, l ≠ conf_defs → dicts w' !! l = dicts w !! l)
    ∧ dom (dicts w') = dom (dicts w)
    ∧ ∃ called, constructed w' = constructed w ++ called
                ∧ called `prefix_of` names
                ∧ (r = Ok () → called = names).
Proof.
  induction names as [|exp_name names IH]; intros w r w'; simpl.
  - step. intros [= <- <-]. repeat split; try done.
    exists []. by rewrite app_nil_r.
  - step.
    destruct (compile_experiment self exp_name cli_reporter run_filter w)
      as [[e|ex] w1] eqn:Hc.
    + apply compile_experiment_ok in Hc as [Hd Hl].
      unfold dict_setitem. simpl. intros Hrest.
      apply IH in Hrest as (Hframe & Hdom & called & Hcon & Hpre & Hall).
      simpl in *. split; [|split].
      * intros l Hl'. rewrite (Hframe l Hl'), lookup_alter_ne, Hd; done.
      * by rewrite Hdom, dom_alter_L, Hd.
      * exists (exp_name :: called). rewrite Hcon, Hl, <- app_assoc.
        split; [done|]. split; [by apply prefix_cons|].
        intros Hr. by rewrite (Hall Hr).
    + intros [= <- <-].
      apply compile_experiment_any in Hc as [Hd [[-> _]|Hl]].
      * repeat split; try done. exists []. rewrite app_nil_r.
        split; [done|]. split; [apply prefix_nil|done].
      * split; [by rewrite Hd|]. split; [by rewrite Hd|].
        exists [exp_name]. split; [done|]. split; [|done].
        by apply prefix_cons, prefix_nil.
Qed.


(** X9: the [Experiment(...)] calls that [_compile_experiments] makes,
    whatever its outcome, are those for an initial stretch of the
    selected names in configuration order (all keys for ["all"], else
    the chosen name alone), and for all of them if it succeeds. *)
Theorem constructor_calls_follow_selection_order
    self cli_reporter run_filter w (r : result loc) w'
    (exp : string) (exps : list (string * ExpDef)) :
  experiment_name self = Ok (Some exp) →
  cfg_experiments (_raw_config self) = Some exps →
  compile_experiments self cli_reporter run_filter w = (r, w') →
  ∃ called,
    constructed w' = constructed w ++ called
    ∧ called `prefix_of`
        (if String.eqb exp "all" then dict_keys exps else [exp])
    ∧ ((∃ l, r = Ok l) →
       called = (if String.eqb exp "all" then dict_keys exps else [exp])).
Proof.
  intros Hn Hexps. unfold _compile_experiments. step. rewrite Hn, Hexps.
  destruct (String.eqb exp "") eqn:Hempty; simpl.
  { intros [= <- <-]. exists []. rewrite app_nil_r. split; [done|].
    split; [apply prefix_nil|]. by intros [l ?]. }
  unfold new_dict. simpl.
  destruct (String.eqb exp "all"); simpl.
  - match goal with |- context [compile_each _ _ _ _ _ ?l _ ?w0] =>
      destruct (each self cli_reporter run_filter l (dict_keys exps) w0)
        as [r1 w1] eqn:Hloop end.
    apply each_any in Hloop as (_ & _ & called & Hcon & Hpre & Hall).
    simpl in Hcon.
    destruct r1 as [[]|ex]; intros [= <- <-]; exists called;
      (split; [done|]); (split; [done|]).
    + intros _. by apply Hall.
    + by intros [l ?].
  - destruct (dict_contains exps exp); simpl.
    2:{ intros [= <- <-]. exists []. simpl. rewrite app_nil_r. split; [done|].
        split; [apply prefix_nil|]. by intros [l ?]. }
    match goal with |- context [_compile_experiment _ _ _ _ _ _ ?w0] =>
      destruct (compile_experiment self exp cli_reporter run_filter w0)
        as [[e|ex] w1] eqn:Hc end.
    + apply compile_experiment_ok in Hc as [_ Hl]. simpl in Hl.
      unfold dict_setitem. simpl. intros [= <- <-]. simpl.
      exists [exp]. by rewrite Hl.
    + apply compile_experiment_any in Hc as [_ [[-> _]|Hl]];
        intros [= <- <-]; simpl.
      * exists []. rewrite app_nil_r. split; [done|].
        split; [apply prefix_nil|]. by intros [l ?].
      * exists [exp]. split; [done|]. split; [done|]. by intros [l ?].
Qed.

Lemma compile_named_inv
    self cli_reporter run_filter w (exp : string)
    (exps : list (string * ExpDef)) (l : loc) w' :
  experiment_name self = Ok (Some exp) →
  exp ≠ "" →
  exp ≠ "all" →
  cfg_experiments (_raw_config self) = Some exps →
  compile_experiments self cli_reporter run_filter w = (Ok l, w') →
  exp ∈ dict_keys exps
  ∧ ∃ e exp_def vms suites,
      dicts w' !! l = Some {[exp := e]}
      ∧ dict_getitem exps exp = Ok exp_def
      ∧ Experiment_init
          (args_for self exp exp_def vms suites cli_reporter run_filter)
          (ext w) = (Ok e, ext w')
      ∧ constructed w' = constructed w ++ [exp].
Proof.
  intros Hn Hne Hall Hexps. unfold _compile_experiments. step.
  rewrite Hn, Hexps.
  destruct (String.eqb_spec exp ""); [done|].
  destruct (String.eqb_spec exp "all"); [done|].
  unfold new_dict. simpl.
  destruct (dict_contains exps exp) eqn:Hin; simpl; [|done].
  apply dict_contains_keys in Hin.
  match goal with |- context [_compile_experiment _ _ _ _ _ _ ?w0] =>
    destruct (compile_experiment self exp cli_reporter run_filter w0)
      as [[e|ex] w1] eqn:Hc; [|done] end.
  apply compile_experiment_inv in Hc
    as (exps' & exp_def & vms & suites & Hexps' & Hdef & _ & _ & Hinit & Hd
        & Hl).
  rewrite Hexps in Hexps'. injection Hexps' as <-. simpl in *.
  unfold dict_setitem. simpl. intros [= <- <-]. simpl.
  split; [done|]. exists e, exp_def, vms, suites.
  split; [|done].
  rewrite lookup_alter_eq, Hd, lookup_insert_eq. simpl.
  by rewrite insert_empty.
Qed.


Lemma compile_experiment_missing
    self (exp_name : string) cli_reporter run_filter w
    (exps : list (string * ExpDef)) :
  cfg_experiments (_raw_config self) = Some exps →
  exp_name ∈ dict_keys exps →
  (cfg_virtual_machines (_raw_config self) = None →
   compile_experiment self exp_name cli_reporter run_filter w
   = (Raise (KeyError "virtual_machines"), w))
  ∧ (is_Some (cfg_virtual_machines (_raw_config self)) →
     cfg_benchmark_suites (_raw_config self) = None →
     compile_experiment self exp_name cli_reporter run_filter w
     = (Raise (KeyError "benchmark_suites"), w)).
Proof.
  intros Hexps Hkey. unfold _compile_experiment. step. rewrite Hexps. simpl.
  destruct (dict_getitem_key exps exp_name Hkey) as [exp_def ->]. simpl.
  split.
  - by intros ->.
  - intros [vms ->] ->. done.
Qed.

(** X11: a missing table in the configuration. With a name chosen, a
    missing [experiments] key gives [KeyError('experiments')]; if there
    is something to compile, a missing [virtual_machines] key, or else a
    missing [benchmark_suites] key, gives the [KeyError] for that key.
    In each case only the empty result dict has been created and
    [Experiment(...)] has not been called. With ["all"] and no
    experiment configured the two tables are never read: the result is
    the empty dict. *)
Theorem missing_table_raises_key_error
    self cli_reporter run_filter w (exp : string) :
  experiment_name self = Ok (Some exp) →
  exp ≠ "" →
  (cfg_experiments (_raw_config self) = None →
   compile_experiments self cli_reporter run_filter w
   = (Raise (KeyError "experiments"),
      {| ext := ext w; dicts := <[fresh (dom (dicts w)) := ∅]> (dicts w);
         constructed := constructed w |}))
  ∧ (∀ exps,
       cfg_experiments (_raw_config self) = Some exps →
       (exp = "all" ∧ exps ≠ []) ∨ (exp ≠ "all" ∧ exp ∈ dict_keys exps) →
       (cfg_virtual_machines (_raw_config self) = None →
        compile_experiments self cli_reporter run_filter w
        = (Raise (KeyError "virtual_machines"),
           {| ext := ext w; dicts := <[fresh (dom (dicts w)) := ∅]> (dicts w);
              constructed := constructed w |}))
       ∧ (is_Some (cfg_virtual_machines (_raw_config self)) →
          cfg_benchmark_suites (_raw_config self) = None →
          compile_experiments self cli_reporter run_filter w
          = (Raise (KeyError "benchmark_suites"),
             {| ext := ext w;
                dicts := <[fresh (dom (dicts w)) := ∅]> (dicts w);
                constructed := constructed w |})))
  ∧ (exp = "all" →
     cfg_experiments (_raw_config self) = Some [] →
     compile_experiments self cli_reporter run_filter w
     = (Ok (fresh (dom (dicts w))),
        {| ext := ext w; dicts := <[fresh (dom (dicts w)) := ∅]> (dicts w);
           constructed := constructed w |})).
Proof.
  intros Hn Hne. unfold _compile_experiments. step. rewrite Hn.
  destruct (String.eqb_spec exp ""); [done|].
  unfold new_dict. simpl. split; [|split].
  - intros ->. simpl. by destruct (String.eqb exp "all").
  - intros exps Hexps Hsel. rewrite Hexps. simpl.
    destruct Hsel as [[-> Hnonempty]|[Hall Hkey]].
    + simpl. destruct exps as [|[k def] exps]; [done|]. simpl. step.
      match goal with |- context [_compile_experiment _ _ _ _ _ _ ?w0] =>
        destruct (compile_experiment_missing self k cli_reporter run_filter
                    w0 ((k, def) :: exps) Hexps) as [Hvms Hsuites] end.
      { apply elem_of_cons. by left. }
      split.
      * intros Hnone. by rewrite (Hvms Hnone).
      * intros Hsome Hnone. by rewrite (Hsuites Hsome Hnone).
    + destruct (String.eqb_spec exp "all"); [done|]. simpl.
      pose proof Hkey as Hin. apply dict_contains_keys in Hin as ->. simpl.
      match goal with |- context [_compile_experiment _ _ _ _ _ _ ?w0] =>
        destruct (compile_experiment_missing self exp cli_reporter run_filter
                    w0 exps Hexps Hkey) as [Hvms Hsuites] end.
      split.
      * intros Hnone. by rewrite (Hvms Hnone).
      * intros Hsome Hnone. by rewrite (Hsuites Hsome Hnone).
  - intros -> ->. done.
Qed.


(** What a successful [__init__] has stored in the Configurator. *)
Lemma init_base (file_name : string) (data_store : DataStore)
    (cli_options : option Options) cli_reporter
    (exp_name standard_data_file : option string)
    (tokens : option (list string)) w conf w' :
  init file_name data_store cli_options cli_reporter exp_name
    standard_data_file tokens w = (Ok conf, w') →
  ∃ raw e1,
    _load_config file_name (ext w) = (Ok raw, e1)
    ∧ _raw_config conf
      = (if truthy standard_data_file then
           {| cfg_runs := cfg_runs raw;
              cfg_standard_data_file := standard_data_file;
              cfg_standard_experiment := cfg_standard_experiment raw;
              cfg_experiments := cfg_experiments raw;
              cfg_virtual_machines := cfg_virtual_machines raw;
              cfg_benchmark_suites := cfg_benchmark_suites raw;
              cfg_reporting := cfg_reporting raw;
              cfg_build_log := cfg_build_log raw |}
         else raw)
    ∧ _options conf = _process_cli_options can_set_niceness cli_options e1
    ∧ _exp_name conf = exp_name
    ∧ runs conf
      = RunsConfig_init
          (default empty_runs
             (cfg_runs (if truthy standard_data_file then
                          {| cfg_runs := cfg_runs raw;
                             cfg_standard_data_file := standard_data_file;
                             cfg_standard_experiment :=
                               cfg_standard_experiment raw;
                             cfg_experiments := cfg_experiments raw;
                             cfg_virtual_machines := cfg_virtual_machines raw;
                             cfg_benchmark_suites := cfg_benchmark_suites raw;
                             cfg_reporting := cfg_reporting raw;
                             cfg_build_log := cfg_build_log raw |}
                        else raw)))
    ∧ _data_store conf = data_store.
Proof.
  unfold __init__, load. step.
  destruct (_load_config file_name (ext w)) as [[raw|ex] e1]; [|done].
  destruct (_RunFilter.__init__ tokens) as [run_filter|ex]; [|done].
  match goal with |- context [_compile_experiments _ _ ?s _ _ ?w1] =>
    destruct (compile_experiments s cli_reporter run_filter w1)
      as [[l|ex] w2] eqn:Hc; [|done] end.
  intros [= <- <-]. by exists raw, e1.
Qed.

(** X13: after construction [use_nice] is on exactly when the options
    asked for it and the probe (made once the configuration is loaded)
    allowed it; the other option flags are the caller's, and no options
    stay no options. *)
Theorem use_nice_needs_request_and_probe
    (file_name : string) (data_store : DataStore)
    (cli_options : option Options) cli_reporter
    (exp_name standard_data_file : option string)
    (tokens : option (list string)) w conf w'
    (r : result RawConfig) (e1 : W) :
  init file_name data_store cli_options cli_reporter exp_name
    standard_data_file tokens w = (Ok conf, w') →
  _load_config file_name (ext w) = (r, e1) →
  (prop_use_nice conf = true
   ↔ (∃ o, cli_options = Some o ∧ use_nice o = true)
     ∧ can_set_niceness e1 = true)
  ∧ prop_do_builds conf
    = match cli_options with Some o => do_builds o | None => false end
  ∧ (∀ o, cli_options = Some o →
          ∃ o', options conf = Some o'
                ∧ debug o' = debug o ∧ verbose o' = verbose o
                ∧ do_builds o' = do_builds o ∧ clean o' = clean o)
  ∧ (cli_options = None → options conf = None).
Proof.
  intros Hinit Hload.
  apply init_base in Hinit as (raw & e1' & Hload' & _ & Hopts & _).
  rewrite Hload in Hload'. injection Hload' as -> ->.
  unfold prop_use_nice, prop_do_builds, options. rewrite Hopts.
  unfold _process_cli_options.
  destruct cli_options as [o|]; simpl.
  - destruct (use_nice o) eqn:Hnice; destruct (can_set_niceness e1') eqn:Hprobe;
      simpl; rewrite ?Hnice; (split; [|split; [done|split; [|done]]]).
    all: try (intros o0 [= <-]; by eexists).
    + split; [|done]. intros _. split; [by exists o|done].
    + split; [done|]. by intros [_ ?].
    + split; [done|]. intros [(o0 & [= <-] & ?) _]. congruence.
    + split; [done|]. by intros [_ ?].
  - split; [|done]. split; [done|]. by intros [(o & ? & _) _].
Qed.

(** X14: the only key of the loaded configuration that construction may
    replace is [standard_data_file], and only by a non-empty override;
    [None] and the empty string leave the loaded value. The name from
    the command line and the data store are stored as given. *)
Theorem only_standard_data_file_overridden
    (file_name : string) (data_store : DataStore)
    (cli_options : option Options) cli_reporter
    (exp_name standard_data_file : option string)
    (tokens : option (list string)) w conf w'
    (raw : RawConfig) (e1 : W) :
  init file_name data_store cli_options cli_reporter exp_name
    standard_data_file tokens w = (Ok conf, w') →
  _load_config file_name (ext w) = (Ok raw, e1) →
  cfg_standard_data_file (_raw_config conf)
  = (if truthy standard_data_file then standard_data_file
     else cfg_standard_data_file raw)
  ∧ cfg_runs (_raw_config conf) = cfg_runs raw
  ∧ cfg_standard_experiment (_raw_config conf) = cfg_standard_experiment raw
  ∧ cfg_experiments (_raw_config conf) = cfg_experiments raw
  ∧ cfg_virtual_machines (_raw_config conf) = cfg_virtual_machines raw
  ∧ cfg_benchmark_suites (_raw_config conf) = cfg_benchmark_suites raw
  ∧ cfg_reporting (_raw_config conf) = cfg_reporting raw
  ∧ cfg_build_log (_raw_config conf) = cfg_build_log raw
  ∧ _exp_name conf = exp_name
  ∧ _data_store conf = data_store.
Proof.
  intros Hinit Hload.
  apply init_base in Hinit as (raw' & e1' & Hload' & -> & _ & -> & _ & ->).
  rewrite Hload in Hload'. injection Hload' as <- <-.
  by destruct (truthy standard_data_file).
Qed.

Lemma elem_of_foldl_union (f : Experiment → gset Run) (l : list Experiment)
    (acc : gset Run) (r : Run) :
  r ∈ foldl (λ runs exp, runs ∪ f exp) acc l
  ↔ r ∈ acc ∨ ∃ x, x ∈ l ∧ r ∈ f x.
Proof.
  revert acc. induction l as [|x l IH]; intros acc; simpl.
  - split; [by left|]. intros [?|(x & Hx & _)]; [done|].
    by apply elem_of_nil in Hx.
  - rewrite IH, elem_of_union. split.
    + intros [[?|?]|(y & Hy & ?)].
      * by left.
      * right. exists x. split; [apply elem_of_cons; by left|done].
      * right. exists y. split; [apply elem_of_cons; by right|done].
    + intros [?|(y & Hy & ?)]; [by left; left|].
      apply elem_of_cons in Hy as [->|Hy]; [by left; right|].
      right. by exists y.
Qed.

(** X15: [get_runs] changes nothing and returns the union of the run
    sets of the compiled experiments: a run is in the result exactly
    when it is a run of some experiment stored in the compiled dict. *)
Theorem get_runs_is_the_union conf w (m : gmap string Experiment) :
  dicts w !! get_experiments conf = Some m →
  ∃ rs, get_runs Experiment_get_runs conf w = (Ok rs, w)
        ∧ (∀ r, r ∈ rs
                ↔ ∃ exp_name e,
                    m !! exp_name = Some e ∧ r ∈ Experiment_get_runs e)
        ∧ (m = ∅ → rs = ∅).
Proof.
  intros Hm. unfold get_runs, deref. unfold get_experiments in Hm.
  rewrite Hm. simpl. eexists. split; [done|]. split.
  - intros r. rewrite elem_of_foldl_union. split.
    + intros [Hr|(e & He & Hr)]; [by apply elem_of_empty in Hr|].
      apply list_elem_of_In, in_map_iff in He as ([k e'] & <- & Hin).
      apply list_elem_of_In, elem_of_map_to_list in Hin. by exists k, e'.
    + intros (k & e & Hk & Hr). right. exists e. split; [|done].
      apply list_elem_of_In, in_map_iff. exists (k, e). split; [done|].
      by apply list_elem_of_In, elem_of_map_to_list.
  - intros ->. by rewrite map_to_list_empty.
Qed.

Lemma compile_all_inv
    self cli_reporter run_filter w (exps : list (string * ExpDef))
    (l : loc) w' :
  experiment_name self = Ok (Some "all") →
  cfg_experiments (_raw_config self) = Some exps →
  compile_experiments self cli_reporter run_filter w = (Ok l, w') →
  ∃ m : gmap string Experiment,
    dicts w' !! l = Some m ∧ dom m = list_to_set (dict_keys exps).
Proof.
  intros Hn Hexps. unfold _compile_experiments. step.
  rewrite Hn, Hexps. simpl. unfold new_dict. simpl.
  match goal with |- context [compile_each _ _ _ _ _ ?l0 _ ?w0] =>
    destruct (each self cli_reporter run_filter l0 (dict_keys exps) w0)
      as [[[]|ex] w1] eqn:Hloop; [|done] end.
  intros [= <- <-].
  eapply (each_ok _ _ _ _ _ _ _ _ _ ∅) in Hloop as (m & Hm & Hdom & _);
    [|apply lookup_insert_eq].
  exists m. split; [done|].
  by rewrite Hdom, dom_empty_L, (left_id_L ∅ (∪)).
Qed.

(** X16: on a constructed Configurator [get_experiment] finds exactly
    the selected experiments: every key of [experiments] if the chosen
    name is ["all"], the chosen name alone otherwise; any other name
    raises [KeyError] with that name. *)
Theorem get_experiment_finds_the_selected
    (file_name : string) (data_store : DataStore)
    (cli_options : option Options) cli_reporter
    (exp_name standard_data_file : option string)
    (tokens : option (list string)) w conf w'
    (exp : string) (exps : list (string * ExpDef)) (key : string) :
  init file_name data_store cli_options cli_reporter exp_name
    standard_data_file tokens w = (Ok conf, w') →
  experiment_name conf = Ok (Some exp) →
  cfg_experiments (_raw_config conf) = Some exps →
  ((∃ e, get_experiment conf key w' = (Ok e, w'))
   ↔ (if String.eqb exp "all" then key ∈ dict_keys exps else key = exp))
  ∧ (get_experiment conf key w' = (Raise (KeyError key), w')
     ↔ ¬ (if String.eqb exp "all" then key ∈ dict_keys exps else key = exp)).
Proof.
  intros Hinit Hn Hexps.
  apply init_ok in Hinit as (run_filter & w1 & _ & Hc & _).
  assert (∃ m : gmap string Experiment,
            dicts w' !! get_experiments conf = Some m
            ∧ ∀ k, is_Some (m !! k)
                   ↔ (if String.eqb exp "all" then k ∈ dict_keys exps
                      else k = exp)) as (m & Hm & Hkeys).
  { destruct (String.eqb_spec exp "all") as [->|Hall].
    - destruct (compile_all_inv _ _ _ _ _ _ _ Hn Hexps Hc) as (m & Hm & Hdom).
      exists m. split; [done|]. intros k.
      by rewrite <- elem_of_dom, Hdom, elem_of_list_to_set.
    - assert (exp ≠ "") as Hne.
      { intros ->.
        rewrite (no_experiment_chosen _ _ _ _ _ _ _ Hn eq_refl) in Hc. done. }
      destruct (compile_named_inv _ _ _ _ _ _ _ _ Hn Hne Hall Hexps Hc)
        as (_ & e & _ & _ & _ & Hm & _).
      exists {[exp := e]}. split; [done|]. intros k.
      unfold is_Some. setoid_rewrite lookup_singleton_Some. split.
      + by intros (? & <- & _).
      + intros ->. by exists e. }
  unfold get_experiment, deref. unfold get_experiments in Hm. rewrite Hm.
  simpl. rewrite <- (Hkeys key).
  destruct (m !! key) as [e|]; split.
  - split; [by eexists|by intros _; eexists].
  - split; [done|]. intros Hno. destruct Hno. by eexists.
  - split; [by intros [? ?]|by intros [? ?]].
  - split; [|done]. intros _ [? ?]. done.
Qed.

End ConfiguratorMore.

(** ** These properties on the sample configuration *)


Lemma constructor_calls_follow_selection_order_witness :
  ∃ called,
    constructed (SampleMore.compile_failing (Some "all") Sample.world0).2
    = constructed Sample.world0 ++ called
    ∧ called `prefix_of`
        (if String.eqb "all" "all" then dict_keys [("Test", tt); ("Other", tt)]
         else ["all"])
    ∧ ((∃ l, (SampleMore.compile_failing (Some "all") Sample.world0).1 = Ok l) →
       called
       = (if String.eqb "all" "all" then dict_keys [("Test", tt); ("Other", tt)]
          else ["all"])).
Proof.
  apply (constructor_calls_follow_selection_order tt
           SampleMore.Experiment_init_failing
           (Sample.self0 Sample.config (Some "all")) None _RunFilter.empty
           Sample.world0
           (SampleMore.compile_failing (Some "all") Sample.world0).1
           (SampleMore.compile_failing (Some "all") Sample.world0).2
           "all" [("Test", tt); ("Other", tt)]).
  - reflexivity.
  - reflexivity.
  - apply surjective_pairing.
Defined.


Lemma missing_table_raises_key_error_witness :
  Sample.compile SampleMore.config_no_vms (Some "all") Sample.world0
  = (Raise (KeyError "virtual_machines"),
     {| ext := 0; dicts := {[1%positive := ∅]}; constructed := [] |}).
Proof.
  destruct (missing_table_raises_key_error tt Sample.Experiment_init
              (Sample.self0 SampleMore.config_no_vms (Some "all")) None
              _RunFilter.empty Sample.world0 "all")
    as (_ & Htables & _).
  - reflexivity.
  - discriminate.
  - destruct (Htables [("Test", tt); ("Other", tt)]) as [Hvms _].
    + reflexivity.
    + left. split; [reflexivity|discriminate].
    + apply Hvms. reflexivity.
Defined.


Lemma get_runs_is_the_union_witness :
  ∃ rs,
    get_runs Sample.Experiment_get_runs (Sample.conf (Some "all"))
      (Sample.world_of (Some "all"))
    = (Ok rs, Sample.world_of (Some "all"))
    ∧ (∀ r, r ∈ rs
            ↔ ∃ exp_name e,
                ({["Test" := "Test"; "Other" := "Other"]} : gmap string string)
                  !! exp_name = Some e
                ∧ r ∈ Sample.Experiment_get_runs e)
    ∧ (({["Test" := "Test"; "Other" := "Other"]} : gmap string string) = ∅ →
       rs = ∅).
Proof.
  apply (get_runs_is_the_union Sample.Experiment_get_runs
           (Sample.conf (Some "all")) (Sample.world_of (Some "all"))).
  vm_compute. reflexivity.
Defined.

Lemma get_experiment_finds_the_selected_witness :
  ((∃ e, get_experiment (Sample.conf (Some "all")) "Other"
           (Sample.world_of (Some "all"))
         = (Ok e, Sample.world_of (Some "all")))
   ↔ (if String.eqb "all" "all"
      then "Other" ∈ dict_keys [("Test", tt); ("Other", tt)]
      else "Other" = "all"))
  ∧ (get_experiment (Sample.conf (Some "all")) "Other"
       (Sample.world_of (Some "all"))
     = (Raise (KeyError "Other"), Sample.world_of (Some "all"))
     ↔ ¬ (if String.eqb "all" "all"
          then "Other" ∈ dict_keys [("Test", tt); ("Other", tt)]
          else "Other" = "all")).
Proof.
  apply (get_experiment_finds_the_selected Sample.load_config (fun _ => tt)
           tt tt (fun _ => true) Sample.Experiment_init "rebench.conf" tt
           None None (Some "all") None None Sample.world0
           (Sample.conf (Some "all")) (Sample.world_of (Some "all"))
           "all" [("Test", tt); ("Other", tt)] "Other");
    reflexivity.
Defined.

Lemma use_nice_needs_request_and_probe_witness :
  prop_use_nice
    {| base := {| _raw_config := Sample.config;
                  _options :=
                    Some {| debug := false; verbose := false;
                            use_nice := false; do_builds := true;
                            clean := false |};
                  _exp_name := Some "Test"; runs := tt; _data_store := tt |};
       _experiments := 1%positive |} = false
  ∧ prop_do_builds
      {| base := {| _raw_config := Sample.config;
                    _options :=
                      Some {| debug := false; verbose := false;
                              use_nice := false; do_builds := true;
                              clean := false |};
                    _exp_name := Some "Test"; runs := tt; _data_store := tt |};
         _experiments := 1%positive |} = true.
Proof.
  destruct (use_nice_needs_request_and_probe Sample.load_config (fun _ => tt)
              tt tt (fun _ => false) Sample.Experiment_init "rebench.conf" tt
              (Some SampleMore.options_nice) None (Some "Test") None None
              Sample.world0
              {| base := {| _raw_config := Sample.config;
                            _options :=
                              Some {| debug := false; verbose := false;
                                      use_nice := false; do_builds := true;
                                      clean := false |};
                            _exp_name := Some "Test"; runs := tt;
                            _data_store := tt |};
                 _experiments := 1%positive |}
              (Sample.world_of (Some "Test")) (Ok Sample.config) 0)
    as (Hnice & Hbuilds & _).
  - reflexivity.
  - reflexivity.
  - split; [|exact Hbuilds].
    apply not_true_is_false. intros Hon. apply Hnice in Hon as [_ Hprobe].
    discriminate Hprobe.
Defined.

Lemma only_standard_data_file_overridden_witness :
  ∃ conf w',
    SampleMore.new_with true None (Some "other.data") (Some "Test")
      Sample.world0 = (Ok conf, w')
    ∧ cfg_standard_data_file (_raw_config conf) = Some "other.data"
    ∧ cfg_experiments (_raw_config conf) = cfg_experiments Sample.config
    ∧ _exp_name conf = Some "Test".
Proof.
  destruct (SampleMore.new_with true None (Some "other.data") (Some "Test")
              Sample.world0) as [[conf|e] w'] eqn:Hnew; [|discriminate Hnew].
  exists conf, w'. split; [reflexivity|].
  destruct (only_standard_data_file_overridden Sample.load_config
              (fun _ => tt) tt tt (fun _ => true) Sample.Experiment_init
              "rebench.conf" tt None None (Some "Test") (Some "other.data")
              None Sample.world0 conf w' Sample.config 0 Hnew eq_refl)
    as (Hsdf & _ & _ & Hexps & _ & _ & _ & _ & Hname & _).
  split; [exact Hsdf|]. split; [exact Hexps|exact Hname].
Defined.
